(** * Stage reconciliation, weighted progress and engagement lifecycle

    Shallow embedding of the pentest-engagement logic of
    [src/frontend/src/components/DocumentCard.jsx] ([OngoingProjectCard] and
    its helpers [calculateBusinessDays], [calculateWeightedProgress],
    [initializePentestStages], the reconciliation effect and the event
    handlers).

    Modelling choices:
    - JavaScript numbers used by the progress computations are exact
      rationals [Q]; [Math.round x] is [floor (x + 1/2)].
    - A [Date] is a local calendar day (days since 1970-01-01, a Thursday)
      together with a time of day in milliseconds.
    - [updateProject] calls are recorded in an output list of writes, in
      the order the handler issues them; [alert] calls are recorded too.
    - The JS [Map] of [initializePentestStages] is a stdpp [gmap]. *)

From Stdlib Require Import ZArith QArith Qround String Ascii List Lia.
From stdpp Require Import base gmap strings.
Import ListNotations.
Open Scope string_scope.
Open Scope Z_scope.

(** ** Data model *)

(** A stage object as stored in [pentest_stages]. *)
Record Stage := mkStage {
  stage : string;
  done : bool;
  date : option string;        (** ISO timestamp or [null] *)
  isStatic : bool
}.

(** A test item as stored in [tests_checklist]. *)
Module TestItem.
Record t := mk {
  test : string;
  done : bool;
  date : option string
}.
End TestItem.

(** [Array.prototype.includes] on a list of strings. *)
Definition includes (l : list string) (x : string) : bool :=
  existsb (String.eqb x) l.

Definition STATIC_PENTEST_STAGES : list string := [
  "Ticket Assigned";
  "Kickoff";
  "Accounts Received";
  "Enumeration";
  "Manual Testing";
  "Automated Testing";
  "Lateral Movement";
  "Exploitation";
  "Known CVE";
  "Compliance";
  "Reporting";
  "Shared report 1on1 to PSM";
  "Uploaded report on Sharepoint";
  "Sent Emails to Stakeholders";
  "Last Jira Ticket Closed"
].

(** ** Calendar utility: [calculateBusinessDays] *)

Record Date := mkDate {
  day : Z;      (** local calendar day, 0 = 1970-01-01 *)
  time : Z      (** milliseconds since local midnight *)
}.

(** [d.setHours(0, 0, 0, 0)] *)
Definition setHours0 (d : Date) : Date := mkDate (day d) 0.

(** [Date.prototype.getDay]: 0 = Sunday, ..., 6 = Saturday. *)
Definition getDay (d : Z) : Z := (d + 4) mod 7.

(** date-fns [isWeekend]. *)
Definition isWeekend (d : Z) : bool :=
  (getDay d =? 6) || (getDay d =? 0).

Fixpoint days_from (d : Z) (n : nat) : list Z :=
  match n with
  | O => []
  | S k => d :: days_from (d + 1) k
  end.

(** date-fns [eachDayOfInterval({start, end})], both ends included. *)
Definition eachDayOfInterval (s e : Z) : list Z :=
  days_from s (Z.to_nat (e - s + 1)).

(** [calculateBusinessDays(startDate, endDate)]; a missing argument
    ([null]/[undefined]) is [None]. *)
Definition calculateBusinessDays (startDate endDate : option Date) : Z :=
  match startDate, endDate with
  | Some sd, Some ed =>
      let start := setHours0 sd in
      let end_ := setHours0 ed in
      (* both normalized to midnight: [start > end] compares the days *)
      if day end_ <? day start then 0
      else
        let days := eachDayOfInterval (day start) (day end_) in
        let businessDays := List.filter (fun d => negb (isWeekend d)) days in
        Z.of_nat (length businessDays)
  | _, _ => 0
  end.

(** ** Progress calculator: [calculateWeightedProgress] *)

(** [Math.round] on an exact rational. *)
Definition Math_round (x : Q) : Z := Qfloor (x + (1 # 2)).

Definition PREPARATION_STAGES : list string := ["Kickoff"; "Accounts Received"].
Definition MAIN_TESTING_STAGES : list string := [
  "Enumeration"; "Manual Testing"; "Automated Testing";
  "Lateral Movement"; "Exploitation"; "Known CVE"; "Compliance"].
Definition FINAL_STAGES : list string := [
  "Reporting"; "Shared report 1on1 to PSM";
  "Uploaded report on Sharepoint"; "Sent Emails to Stakeholders";
  "Last Jira Ticket Closed"].

Definition groupCompleted (g : list string) (stages : list Stage) : nat :=
  length (List.filter (fun s => includes g (stage s) && done s) stages).

Definition groupTotal (g : list string) (stages : list Stage) : nat :=
  length (List.filter (fun s => includes g (stage s)) stages).

Definition natQ (n : nat) : Q := inject_Z (Z.of_nat n).

(** [total > 0 ? (completed / total * w) : 0] *)
Definition groupPct (completed total : nat) (w : Z) : Q :=
  if (0 <? total)%nat then natQ completed / natQ total * inject_Z w else 0.

Definition calculateWeightedProgress (stages : list Stage) : Z :=
  let prepPct := groupPct (groupCompleted PREPARATION_STAGES stages)
                          (groupTotal PREPARATION_STAGES stages) 10 in
  let mainPct := groupPct (groupCompleted MAIN_TESTING_STAGES stages)
                          (groupTotal MAIN_TESTING_STAGES stages) 80 in
  let finalPct := groupPct (groupCompleted FINAL_STAGES stages)
                           (groupTotal FINAL_STAGES stages) 10 in
  Math_round (prepPct + mainPct + finalPct).

(** ** Persistence payloads

    The partial updates handed to [updateProject(project.id, ...)]. *)
Inductive Patch :=
  | PStagesProgress (pentest_stages : list Stage) (progress_percentage : Z)
  | PStages (pentest_stages : list Stage)
  | PTests (tests_checklist : list TestItem.t)
  | PComplete (status : string) (completed_date : string)
              (leave_days : Z) (business_days_worked : Z).

(** [{ ...s, isStatic: b }] *)
Definition withStatic (b : bool) (s : Stage) : Stage :=
  mkStage (stage s) (done s) (date s) b.

(** ** [initializePentestStages] *)

Definition initializePentestStages (existingStages : option (list Stage)) : list Stage :=
  (* existingStages.forEach(stage => existingMap.set(stage.stage, stage)) *)
  let existingMap : gmap string Stage :=
    match existingStages with
    | Some l => if (0 <? length l)%nat
                then fold_left (fun m s => <[stage s := s]> m) l ∅
                else ∅
    | None => ∅
    end in
  let staticStages :=
    map (fun n => match existingMap !! n with
                  | Some existing => withStatic true existing
                  | None => mkStage n false None true
                  end) STATIC_PENTEST_STAGES in
  let customStages :=
    match existingStages with
    | Some l => List.filter (fun s => negb (includes STATIC_PENTEST_STAGES (stage s))) l
    | None => []
    end in
  staticStages ++ customStages.

(** ** The reconciliation effect of [OngoingProjectCard] *)

(** [JSON.stringify(pentest_stages.map(s => ({stage: s.stage, done: s.done})))],
    or ['null'] ([None]) when there is no stage list. *)
Definition Fingerprint := option (list (string * bool)).

Definition stagesKey (pentest_stages : option (list Stage)) : Fingerprint :=
  option_map (map (fun s => (stage s, done s))) pentest_stages.

Definition fingerprint_eqb (a b : Fingerprint) : bool :=
  match a, b with
  | None, None => true
  | Some x, Some y =>
      (fix go (x y : list (string * bool)) : bool :=
         match x, y with
         | [], [] => true
         | (n1, d1) :: x', (n2, d2) :: y' =>
             String.eqb n1 n2 && Bool.eqb d1 d2 && go x' y'
         | _, _ => false
         end) x y
  | _, _ => false
  end.

(** Component state touched by the effect: the ref and the stage view. *)
Record CardState := mkCardState {
  lastProcessedStagesRef : option Fingerprint;   (** [useRef(null)] *)
  pentestStages : list Stage
}.

Definition option_string_eqb (a b : option string) : bool :=
  match a, b with
  | None, None => true
  | Some x, Some y => String.eqb x y
  | _, _ => false
  end.

Definition stage_eqb (a b : Stage) : bool :=
  String.eqb (stage a) (stage b) && Bool.eqb (done a) (done b) &&
  option_string_eqb (date a) (date b) && Bool.eqb (isStatic a) (isStatic b).

(** [JSON.stringify(xs) !== JSON.stringify(ys)] on stage arrays. *)
Fixpoint stages_differ (xs ys : list Stage) : bool :=
  match xs, ys with
  | [], [] => false
  | x :: xs', y :: ys' => negb (stage_eqb x y) || stages_differ xs' ys'
  | _, _ => true
  end.

(** [xs.some((x, idx) => x !== ys[idx])]; [ys[idx]] past the end is
    [undefined], which differs from every string. *)
Fixpoint someDiffers (xs ys : list string) : bool :=
  match xs, ys with
  | [], _ => false
  | x :: xs', [] => true
  | x :: xs', y :: ys' => negb (String.eqb x y) || someDiffers xs' ys'
  end.

(** [staticStagesPresent.find(s => s.stage === n)] *)
Definition findStage (n : string) (l : list Stage) : option Stage :=
  List.find (fun s => String.eqb (stage s) n) l.

(** Progress attached to the corrective write:
    [total > 0 ? Math.round((completed / total) * 100) : 0]. *)
Definition correctiveProgress (updatedStages : list Stage) : Z :=
  let completed := length (List.filter done updatedStages) in
  let total := length updatedStages in
  if (0 <? total)%nat then Math_round (natQ completed / natQ total * 100) else 0.

(** [project.pentest_stages.map(stage => ({ ...stage, isStatic }))] *)
Definition existingStages (ps : list Stage) : list Stage :=
  map (fun s => withStatic (includes STATIC_PENTEST_STAGES (stage s)) s) ps.

Definition staticStagesPresent (ps : list Stage) : list Stage :=
  List.filter isStatic (existingStages ps).

Definition customStages (ps : list Stage) : list Stage :=
  List.filter (fun s => negb (isStatic s)) (existingStages ps).

(** [STATIC.map(n => staticStagesPresent.find(s => s.stage === n)).filter(Boolean)] *)
Definition reorderedStaticStages (ps : list Stage) : list Stage :=
  flat_map (fun n => match findStage n (staticStagesPresent ps) with
                     | Some s => [s]
                     | None => []
                     end) STATIC_PENTEST_STAGES.

(** The candidate view [updatedStages]: statics present, in template order,
    then the custom stages. *)
Definition reconcileStages (ps : list Stage) : list Stage :=
  reorderedStaticStages ps ++ customStages ps.

(** [project.pentest_stages.filter(s => STATIC.includes(s.stage)).map(s => s.stage)] *)
Definition staticStagesInProject (ps : list Stage) : list string :=
  map stage (List.filter (fun s => includes STATIC_PENTEST_STAGES (stage s)) ps).

(** [reorderedStaticStages.map(s => s.stage)] *)
Definition staticStagesInOrder (ps : list Stage) : list string :=
  map stage (reorderedStaticStages ps).

Definition orderChanged (ps : list Stage) : bool :=
  negb (length (staticStagesInProject ps) =? length (staticStagesInOrder ps))%nat ||
  someDiffers (staticStagesInProject ps) (staticStagesInOrder ps).

(** The initial stages seeded when [project.pentest_stages] is missing. *)
Definition initialStages : list Stage :=
  map (fun n => mkStage n false None true) STATIC_PENTEST_STAGES.

(** One run of the effect on [project.pentest_stages]; returns the new
    component state and the corrective writes scheduled by [setTimeout]. *)
Definition reconcileEffect (st : CardState) (pentest_stages : option (list Stage))
  : CardState * list Patch :=
  let currentStagesKey := stagesKey pentest_stages in
  (* if (lastProcessedStagesRef.current === currentStagesKey) return; *)
  let skip := match lastProcessedStagesRef st with
              | Some last => fingerprint_eqb last currentStagesKey
              | None => false
              end in
  if skip then (st, [])
  else
    match pentest_stages with
    | Some ps =>
        let updatedStages := reconcileStages ps in
        let stagesChanged := stages_differ (pentestStages st) updatedStages in
        let view := if stagesChanged then updatedStages else pentestStages st in
        let writes :=
          if orderChanged ps && (0 <? length ps)%nat &&
             (length (staticStagesInProject ps) =? length (staticStagesInOrder ps))%nat
          then [PStagesProgress updatedStages (correctiveProgress updatedStages)]
          else [] in
        (mkCardState (Some currentStagesKey) view, writes)
    | None => (mkCardState (Some currentStagesKey) initialStages, [])
    end.

(** Mounting the card: [useRef(null)] and the lazy [useState] initializer. *)
Definition mountCard (pentest_stages : option (list Stage)) : CardState :=
  mkCardState None (initializePentestStages pentest_stages).

(** ** Lifecycle handlers of [OngoingProjectCard] *)

(** Outcome of a handler: the new list in local state, the [updateProject]
    payloads and the [alert] messages, or a [TypeError] when the handler
    reads a property of [arr[index]] past the end of the array. *)
Inductive Outcome (A : Type) :=
  | Ok (view : A) (writes : list Patch) (alerts : list string)
  | TypeError.
Arguments Ok {A} view writes alerts.
Arguments TypeError {A}.

(** [handleToggleStage(index)]; [now] is [new Date().toISOString()].  The
    handler mutates the stage object it copied by reference; only the
    resulting array matters here.  Lines 437-447 inline the computation of
    [calculateWeightedProgress]. *)
Definition handleToggleStage (isSaving : bool) (now : string)
    (pentestStages : list Stage) (index : nat) : Outcome (list Stage) :=
  if isSaving then Ok pentestStages [] [] else
  match nth_error pentestStages index with
  | None => TypeError
  | Some s =>
      let d := negb (done s) in
      let s' := mkStage (stage s) d (if d then Some now else None) (isStatic s) in
      let updatedStages := <[index := s']> pentestStages in
      Ok updatedStages
         [PStagesProgress updatedStages (calculateWeightedProgress updatedStages)] []
  end.

(** [handleToggleTest(index)]: the date is only written when the item
    becomes done. *)
Definition handleToggleTest (isSaving : bool) (now : string)
    (tests : list TestItem.t) (index : nat) : Outcome (list TestItem.t) :=
  if isSaving then Ok tests [] [] else
  match nth_error tests index with
  | None => TypeError
  | Some t =>
      let d := negb (TestItem.done t) in
      let t' := TestItem.mk (TestItem.test t) d
                  (if d then Some now else TestItem.date t) in
      let updatedTests := <[index := t']> tests in
      Ok updatedTests [PTests updatedTests] []
  end.

(** [arr.filter((_, i) => i !== index)] *)
Fixpoint removeIndex {A} (l : list A) (index : nat) : list A :=
  match l, index with
  | [], _ => []
  | _ :: l', O => l'
  | x :: l', S i => x :: removeIndex l' i
  end.

(** [handleDeleteStage(index)] (it has no [isSaving] guard). *)
Definition handleDeleteStage (pentestStages : list Stage) (index : nat)
  : Outcome (list Stage) :=
  match nth_error pentestStages index with
  | None => TypeError
  | Some s =>
      if isStatic s then Ok pentestStages [] ["Cannot delete static pentesting stages"]
      else
        let updatedStages := removeIndex pentestStages index in
        Ok updatedStages
           [PStagesProgress updatedStages (calculateWeightedProgress updatedStages)] []
  end.

(** [handleCompleteProject()]: [now] is [new Date()], [nowIso] its ISO
    string; [leaveDays] comes from [parseInt(...) || 0], so
    [leaveDays || 0] is [leaveDays]. *)
Definition handleCompleteProject (isSaving : bool) (now : Date) (nowIso : string)
    (start_date : option Date) (leaveDays : Z) : list Patch :=
  if isSaving then [] else
  let completedDate := nowIso in
  let businessDays :=
    match start_date with
    | Some startDate => calculateBusinessDays (Some startDate) (Some now) - leaveDays
    | None => 0
    end in
  [PComplete "past" completedDate leaveDays (Z.max 0 businessDays)].

(** A stage list made of the whole template, in template order, where the
    stages named in [doneNames] are done (used in examples). *)
Definition template_with (doneNames : list string) : list Stage :=
  map (fun n => mkStage n (includes doneNames n) None true) STATIC_PENTEST_STAGES.

(** The last stage of [l] named [n] (the entry a JS [Map] filled by
    [l.forEach(s => map.set(s.stage, s))] holds for [n]). *)
Definition lastNamed (n : string) (l : list Stage) : option Stage :=
  fold_left (fun acc s => if String.eqb (stage s) n then Some s else acc) l None.

(** A persisted list with the statics [Kickoff; Ticket Assigned] (template
    order: [Ticket Assigned; Kickoff]) and one custom stage. *)
Definition reorder_example : list Stage := [
  mkStage "Kickoff" true (Some "2024-01-02T10:00:00.000Z") true;
  mkStage "Ticket Assigned" true (Some "2024-01-01T09:00:00.000Z") true;
  mkStage "Scope review" false None false].

(** The full template with its first two stages swapped, only
    [Ticket Assigned] done. *)
Definition swapped_template : list Stage :=
  mkStage "Kickoff" false None true
  :: mkStage "Ticket Assigned" true (Some "2024-01-01T09:00:00.000Z") true
  :: skipn 2 (template_with []).

(** ** Further handlers and derived values of [OngoingProjectCard] *)

(** [String.prototype.trim] on the ASCII white space it removes (tab, line
    feed, vertical tab, form feed, carriage return, space). *)
Definition is_js_space (c : Ascii.ascii) : bool :=
  let n := Ascii.nat_of_ascii c in
  (n =? 32)%nat || ((9 <=? n)%nat && (n <=? 13)%nat).

Fixpoint ltrim (s : string) : string :=
  match s with
  | EmptyString => EmptyString
  | String c s' => if is_js_space c then ltrim s' else s
  end.

Fixpoint rtrim (s : string) : string :=
  match s with
  | EmptyString => EmptyString
  | String c s' =>
      let r := rtrim s' in
      match r with
      | EmptyString => if is_js_space c then EmptyString else String c EmptyString
      | _ => String c r
      end
  end.

Definition trim (s : string) : string := rtrim (ltrim s).

(** [handleAddStage()]: returns the new content of the [newStage] input
    together with the outcome. *)
Definition handleAddStage (isSaving : bool) (newStage : string)
    (pentestStages : list Stage) : string * Outcome (list Stage) :=
  if isSaving then (newStage, Ok pentestStages [] []) else
  if String.eqb (trim newStage) "" then (newStage, Ok pentestStages [] []) else
  let updatedStages :=
    (pentestStages ++ [mkStage (trim newStage) false None false])%list in
  ("", Ok updatedStages [PStages updatedStages] []).

(** [handleAddTest()] *)
Definition handleAddTest (isSaving : bool) (newTest : string)
    (tests : list TestItem.t) : string * Outcome (list TestItem.t) :=
  if isSaving then (newTest, Ok tests [] []) else
  if String.eqb (trim newTest) "" then (newTest, Ok tests [] []) else
  let updatedTests := (tests ++ [TestItem.mk (trim newTest) false None])%list in
  ("", Ok updatedTests [PTests updatedTests] []).


(** [businessDaysWorked] as shown on the card:
    [completed_date && start_date ? calculateBusinessDays(start, completed)
     - (leave_days || 0) : (business_days_worked || 0)]. *)
Definition displayedBusinessDaysWorked (start_date completed_date : option Date)
    (leave_days business_days_worked : Z) : Z :=
  match completed_date, start_date with
  | Some cd, Some sd => calculateBusinessDays (Some sd) (Some cd) - leave_days
  | _, _ => business_days_worked
  end.

(** [testsProgress = totalTests > 0 ? (completedTests / totalTests) * 100 : 0] *)
Definition testsProgress (tests : list TestItem.t) : Q :=
  let completedTests := length (List.filter TestItem.done tests) in
  let totalTests := length tests in
  if (0 <? totalTests)%nat then natQ completedTests / natQ totalTests * 100 else 0.

(** [businessDaysRemaining = project.end_date && !isCompleted
      ? Math.max(0, calculateBusinessDays(new Date(), new Date(project.end_date)))
      : null] *)
Definition businessDaysRemaining (now : Date) (end_date : option Date)
    (isCompleted : bool) : option Z :=
  match end_date with
  | Some ed => if isCompleted then None
               else Some (Z.max 0 (calculateBusinessDays (Some now) (Some ed)))
  | None => None
  end.

(** * Proofs *)

(** ** Lemmas on group membership counts *)

Definition names (l : list Stage) : list string := map stage l.

Lemma includes_true_iff (g : list string) (x : string) :
  includes g x = true <-> In x g.
Proof.
  unfold includes. rewrite existsb_exists. split.
  - intros [y [Hy Heq]]. apply String.eqb_eq in Heq. subst. exact Hy.
  - intros H. exists x. split; [exact H | apply String.eqb_refl].
Qed.

Lemma hits_not_in (g : list string) (x : string) :
  ~ In x g ->
  list_sum (map (fun n => if string_dec x n then 1%nat else 0%nat) g) = 0%nat.
Proof.
  induction g as [|n g IH]; simpl; intros Hn; [reflexivity|].
  destruct (string_dec x n) as [->|Hne].
  - exfalso. apply Hn. left. reflexivity.
  - apply IH. intros Hin. apply Hn. right. exact Hin.
Qed.

Lemma hits_nodup (g : list string) (x : string) :
  List.NoDup g ->
  list_sum (map (fun n => if string_dec x n then 1%nat else 0%nat) g) =
  if includes g x then 1%nat else 0%nat.
Proof.
  induction g as [|n g IH]; simpl; intros Hnd; [reflexivity|].
  inversion Hnd as [|? ? Hnotin Hnd']; subst.
  unfold includes; simpl.
  destruct (string_dec x n) as [->|Hne].
  - rewrite String.eqb_refl. simpl. rewrite hits_not_in by exact Hnotin. reflexivity.
  - assert (String.eqb x n = false) as -> by (apply String.eqb_neq; exact Hne).
    simpl. apply IH. exact Hnd'.
Qed.

Lemma list_sum_map_add {A} (f h : A -> nat) (g : list A) :
  list_sum (map (fun n => (f n + h n)%nat) g) =
  (list_sum (map f g) + list_sum (map h g))%nat.
Proof. induction g as [|n g IH]; simpl; [reflexivity|]. rewrite IH. lia. Qed.

(** The number of stages whose name lies in a duplicate-free group is the
    sum, over the group, of the occurrences of each name. *)
Lemma groupTotal_count (g : list string) (l : list Stage) :
  List.NoDup g ->
  groupTotal g l = list_sum (map (fun n => count_occ string_dec (names l) n) g).
Proof.
  intros Hnd. unfold groupTotal, names.
  induction l as [|a l IH]; simpl.
  - induction g as [|n g IHg]; simpl; [reflexivity|].
    inversion Hnd; subst. rewrite <- IHg by assumption. reflexivity.
  - transitivity ((if includes g (stage a) then 1 else 0) +
                  length (List.filter (fun s => includes g (stage s)) l))%nat.
    { destruct (includes g (stage a)); reflexivity. }
    rewrite IH.
    transitivity (list_sum (map (fun n => ((if string_dec (stage a) n then 1 else 0)
                    + count_occ string_dec (map stage l) n)%nat) g)).
    + rewrite list_sum_map_add, hits_nodup by exact Hnd. reflexivity.
    + f_equal. apply map_ext. intros n. cbn [map].
      destruct (string_dec (stage a) n) as [Heq|Hne].
      * reflexivity.
      * simpl. destruct (string_dec (stage a) n); [contradiction | reflexivity].
Qed.

Lemma list_sum_const_one (g : list string) (c : string -> nat) :
  (forall n, In n g -> c n = 1%nat) ->
  list_sum (map c g) = length g.
Proof.
  induction g as [|n g IH]; simpl; intros H; [reflexivity|].
  rewrite H by (left; reflexivity). rewrite IH; [reflexivity|].
  intros m Hm. apply H. right. exact Hm.
Qed.

(** A group all of whose names occur exactly once is counted in full. *)
Lemma groupTotal_full (g : list string) (l : list Stage) :
  List.NoDup g ->
  (forall n, In n g -> count_occ string_dec (names l) n = 1%nat) ->
  groupTotal g l = length g.
Proof.
  intros Hnd Hc. rewrite groupTotal_count by exact Hnd.
  apply list_sum_const_one. exact Hc.
Qed.

Example weighted_all_done :
  calculateWeightedProgress (template_with STATIC_PENTEST_STAGES) = 100.
Proof. reflexivity. Qed.

Example weighted_one_prep :
  calculateWeightedProgress (template_with ["Kickoff"]) = 5.
Proof. reflexivity. Qed.

Example weighted_three_main :
  calculateWeightedProgress
    (template_with ["Enumeration"; "Manual Testing"; "Automated Testing"]) = 34.
Proof. reflexivity. Qed.

Lemma groups_nodup :
  List.NoDup PREPARATION_STAGES /\ List.NoDup MAIN_TESTING_STAGES /\
  List.NoDup FINAL_STAGES.
Proof.
  repeat split; repeat constructor; simpl; intuition discriminate.
Qed.

(** C2: when every name of the three weighted groups occurs exactly once in
    the stage list, with [p], [m], [f] of them done, the weighted progress is
    [Math.round(p/2*10 + m/7*80 + f/5*10)]; on the full template this gives
    100 with everything done, 5 with one preparation stage done and 34 with
    three main-testing stages done ([weighted_all_done], [weighted_one_prep],
    [weighted_three_main]). *)
Theorem weighted_progress_full_groups (stages : list Stage) :
  (forall n, In n (PREPARATION_STAGES ++ MAIN_TESTING_STAGES ++ FINAL_STAGES) ->
     count_occ string_dec (names stages) n = 1%nat) ->
  calculateWeightedProgress stages =
  Math_round (natQ (groupCompleted PREPARATION_STAGES stages) / 2 * 10
            + natQ (groupCompleted MAIN_TESTING_STAGES stages) / 7 * 80
            + natQ (groupCompleted FINAL_STAGES stages) / 5 * 10)%Q.
Proof.
  intros Hc. destruct groups_nodup as (Hp & Hm & Hf).
  unfold calculateWeightedProgress.
  rewrite (groupTotal_full PREPARATION_STAGES stages Hp),
          (groupTotal_full MAIN_TESTING_STAGES stages Hm),
          (groupTotal_full FINAL_STAGES stages Hf).
  - reflexivity.
  - intros n Hn. apply Hc. rewrite !in_app_iff. right. right. exact Hn.
  - intros n Hn. apply Hc. rewrite !in_app_iff. right. left. exact Hn.
  - intros n Hn. apply Hc. rewrite !in_app_iff. left. exact Hn.
Qed.

Lemma weighted_progress_full_groups_witness :
  (forall n, In n (PREPARATION_STAGES ++ MAIN_TESTING_STAGES ++ FINAL_STAGES) ->
     count_occ string_dec (names (template_with ["Kickoff"])) n = 1%nat) /\
  calculateWeightedProgress (template_with ["Kickoff"]) = Math_round (1 / 2 * 10)%Q.
Proof.
  assert (H : forall n, In n (PREPARATION_STAGES ++ MAIN_TESTING_STAGES ++ FINAL_STAGES) ->
     count_occ string_dec (names (template_with ["Kickoff"])) n = 1%nat).
  { intros n Hn. simpl in Hn.
    repeat (destruct Hn as [<- | Hn]; [reflexivity |]). destruct Hn. }
  split; [exact H |].
  rewrite (weighted_progress_full_groups _ H). reflexivity.
Defined.

(** ** Business days *)

Lemma days_from_In (s d : Z) (n : nat) :
  In d (days_from s n) <-> s <= d < s + Z.of_nat n.
Proof.
  revert s. induction n as [|n IH]; intros s; simpl.
  - lia.
  - rewrite IH. lia.
Qed.

Lemma days_from_NoDup (s : Z) (n : nat) : List.NoDup (days_from s n).
Proof.
  revert s. induction n as [|n IH]; intros s; simpl; constructor.
  - rewrite days_from_In. lia.
  - apply IH.
Qed.

Lemma isWeekend_false_iff (d : Z) :
  isWeekend d = false <-> 1 <= getDay d <= 5.
Proof.
  unfold isWeekend.
  pose proof (Z.mod_pos_bound (d + 4) 7 ltac:(lia)) as Hb. unfold getDay in *.
  rewrite orb_false_iff, !Z.eqb_neq. lia.
Qed.

(** C8: [calculateBusinessDays] is 0 when the start day is after the end
    day, and otherwise counts exactly the days of the closed interval
    [start, end] (both normalized to midnight) that fall on Monday to Friday;
    Monday 2024-01-01 (15:00) to Friday 2024-01-05 (09:00) gives 5 and
    Saturday 2024-01-06 to Sunday 2024-01-07 gives 0. *)
Theorem business_days_closed_interval (sd ed : Date) :
  (day ed < day sd -> calculateBusinessDays (Some sd) (Some ed) = 0) /\
  (exists ds : list Z,
     calculateBusinessDays (Some sd) (Some ed) = Z.of_nat (length ds) /\
     List.NoDup ds /\
     (forall d, In d ds <-> day sd <= d <= day ed /\ 1 <= getDay d <= 5)) /\
  calculateBusinessDays (Some (mkDate 19723 54000000)) (Some (mkDate 19727 32400000)) = 5 /\
  calculateBusinessDays (Some (mkDate 19728 54000000)) (Some (mkDate 19729 32400000)) = 0.
Proof.
  unfold calculateBusinessDays, setHours0; simpl.
  split; [| split; [| split; reflexivity]].
  - intros Hlt. apply Z.ltb_lt in Hlt. rewrite Hlt. reflexivity.
  - destruct (day ed <? day sd) eqn:Hlt.
    + exists []. apply Z.ltb_lt in Hlt.
      split; [reflexivity|]. split; [constructor|].
      intros d. simpl. lia.
    + apply Z.ltb_ge in Hlt.
      eexists. split; [reflexivity|]. split.
      * apply List.NoDup_filter, days_from_NoDup.
      * intros d. unfold eachDayOfInterval. rewrite List.filter_In, days_from_In, negb_true_iff,
          isWeekend_false_iff. lia.
Qed.

(** ** Decidable comparisons used by the effect *)

Lemma fingerprint_eqb_refl (a : Fingerprint) : fingerprint_eqb a a = true.
Proof.
  destruct a as [x|]; simpl; [|reflexivity].
  induction x as [|[n d] x IH]; [reflexivity|].
  rewrite String.eqb_refl, eqb_reflx. exact IH.
Qed.

Lemma fingerprint_eqb_eq (a b : Fingerprint) : fingerprint_eqb a b = true -> a = b.
Proof.
  destruct a as [x|], b as [y|]; simpl; try discriminate; [|reflexivity].
  intros H. f_equal. revert y H.
  induction x as [|[n1 d1] x IH]; intros [|[n2 d2] y]; simpl; try discriminate;
    [reflexivity|].
  intros H. apply andb_prop in H as [H Hr]. apply andb_prop in H as [Hn Hd].
  apply String.eqb_eq in Hn. apply eqb_prop in Hd. subst.
  f_equal. apply IH. exact Hr.
Qed.

Lemma stage_eqb_eq (a b : Stage) : stage_eqb a b = true -> a = b.
Proof.
  destruct a as [n1 d1 t1 s1], b as [n2 d2 t2 s2]; unfold stage_eqb; simpl.
  intros H. apply andb_prop in H as [H Hs]. apply andb_prop in H as [H Ht].
  apply andb_prop in H as [Hn Hd].
  apply String.eqb_eq in Hn. apply eqb_prop in Hd. apply eqb_prop in Hs.
  destruct t1 as [x1|], t2 as [x2|]; simpl in Ht; try discriminate.
  - apply String.eqb_eq in Ht. subst. reflexivity.
  - subst. reflexivity.
Qed.

Lemma stages_differ_false (xs ys : list Stage) :
  stages_differ xs ys = false -> xs = ys.
Proof.
  revert ys. induction xs as [|x xs IH]; intros [|y ys]; simpl;
    try discriminate; [reflexivity|].
  intros H. apply orb_false_iff in H as [Hxy Hr].
  apply negb_false_iff, stage_eqb_eq in Hxy. subst. f_equal. apply IH. exact Hr.
Qed.

(** ** Shape of a reconciliation pass *)

Definition skipped (st : CardState) (pentest_stages : option (list Stage)) : Prop :=
  lastProcessedStagesRef st = Some (stagesKey pentest_stages).

Lemma reconcileEffect_skip (st : CardState) (pentest_stages : option (list Stage)) :
  skipped st pentest_stages -> reconcileEffect st pentest_stages = (st, []).
Proof.
  unfold skipped, reconcileEffect. intros ->. rewrite fingerprint_eqb_refl. reflexivity.
Qed.

(** A pass that is not skipped shows the candidate view and records the
    fingerprint of its input. *)
Lemma reconcileEffect_run (st : CardState) (ps : list Stage) :
  ~ skipped st (Some ps) ->
  reconcileEffect st (Some ps) =
  (mkCardState (Some (stagesKey (Some ps))) (reconcileStages ps),
   if orderChanged ps && (0 <? length ps)%nat &&
      (length (staticStagesInProject ps) =? length (staticStagesInOrder ps))%nat
   then [PStagesProgress (reconcileStages ps) (correctiveProgress (reconcileStages ps))]
   else []).
Proof.
  unfold skipped, reconcileEffect. intros Hns.
  destruct (lastProcessedStagesRef st) as [last|] eqn:Hl.
  - destruct (fingerprint_eqb last (stagesKey (Some ps))) eqn:He.
    + apply fingerprint_eqb_eq in He. subst. contradiction.
    + destruct (stages_differ (pentestStages st) (reconcileStages ps)) eqn:Hd;
        [reflexivity|].
      apply stages_differ_false in Hd. rewrite Hd. reflexivity.
  - destruct (stages_differ (pentestStages st) (reconcileStages ps)) eqn:Hd;
      [reflexivity|].
    apply stages_differ_false in Hd. rewrite Hd. reflexivity.
Qed.

(** After any pass the ref holds the fingerprint of the pass's input. *)
Lemma reconcileEffect_ref (st : CardState) (pentest_stages : option (list Stage)) :
  skipped (fst (reconcileEffect st pentest_stages)) pentest_stages.
Proof.
  unfold skipped, reconcileEffect.
  destruct (lastProcessedStagesRef st) as [last|] eqn:Hl.
  - destruct (fingerprint_eqb last (stagesKey pentest_stages)) eqn:He.
    + apply fingerprint_eqb_eq in He. subst. exact Hl.
    + destruct pentest_stages; reflexivity.
  - destruct pentest_stages; reflexivity.
Qed.

(** C4: running the effect a second time on the same persisted input leaves
    the component state (ref and stage view) exactly as the first run left
    it and schedules no corrective write: the fingerprint guard skips the
    second pass. *)
Theorem reconcile_second_pass_is_noop (st : CardState) (pentest_stages : option (list Stage)) :
  let '(st1, _) := reconcileEffect st pentest_stages in
  reconcileEffect st1 pentest_stages = (st1, []).
Proof.
  pose proof (reconcileEffect_ref st pentest_stages) as Hr.
  destruct (reconcileEffect st pentest_stages) as [st1 w1]. simpl in Hr.
  apply reconcileEffect_skip. exact Hr.
Qed.

Lemma skipped_dec (st : CardState) (pentest_stages : option (list Stage)) :
  {skipped st pentest_stages} + {~ skipped st pentest_stages}.
Proof.
  unfold skipped. destruct (lastProcessedStagesRef st) as [last|].
  - destruct (fingerprint_eqb last (stagesKey pentest_stages)) eqn:He.
    + left. apply fingerprint_eqb_eq in He. subst. reflexivity.
    + right. intros Heq. injection Heq as ->.
      rewrite fingerprint_eqb_refl in He. discriminate.
  - right. discriminate.
Defined.

(** ** The candidate view only holds stages of its input *)

Lemma existingStages_In (ps : list Stage) (x : Stage) :
  In x (existingStages ps) -> In (stage x) (names ps).
Proof.
  unfold existingStages, names. rewrite in_map_iff. intros [s [<- Hs]].
  exact (in_map stage ps s Hs).
Qed.

Lemma reconcileStages_In (ps : list Stage) (x : Stage) :
  In x (reconcileStages ps) -> In (stage x) (names ps).
Proof.
  unfold reconcileStages, reorderedStaticStages, customStages, staticStagesPresent.
  rewrite in_app_iff, in_flat_map. intros [[n [_ Hx]] | Hx].
  - destruct (findStage n _) as [s|] eqn:Hf; [|destruct Hx].
    destruct Hx as [<- | []].
    apply find_some in Hf as [Hs _]. apply List.filter_In in Hs as [Hs _].
    apply existingStages_In. exact Hs.
  - apply List.filter_In in Hx as [Hx _]. apply existingStages_In. exact Hx.
Qed.

(** C5: for a persisted list lacking the name [n], the candidate view of a
    pass lacks it, so does every corrective write, and the stage view after
    the pass lacks it whenever the pass ran or the view lacked it before
    (a pass skipped by the fingerprint guard leaves the view untouched). *)
Theorem reconcile_never_readds (st : CardState) (ps : list Stage) (n : string) :
  ~ In n (names ps) ->
  ~ In n (names (reconcileStages ps)) /\
  Forall (fun w => match w with
                   | PStagesProgress l _ => ~ In n (names l)
                   | _ => True
                   end) (snd (reconcileEffect st (Some ps))) /\
  ((~ skipped st (Some ps) \/ ~ In n (names (pentestStages st))) ->
   ~ In n (names (pentestStages (fst (reconcileEffect st (Some ps)))))).
Proof.
  intros Hn.
  assert (Hv : ~ In n (names (reconcileStages ps))).
  { unfold names at 1. rewrite in_map_iff. intros [x [<- Hx]].
    apply Hn. apply reconcileStages_In. exact Hx. }
  destruct (skipped_dec st (Some ps)) as [Hs | Hs].
  - rewrite (reconcileEffect_skip _ _ Hs). simpl.
    split; [exact Hv|]. split; [constructor|].
    intros [Hns | Hin]; [contradiction | exact Hin].
  - rewrite (reconcileEffect_run _ _ Hs). simpl.
    split; [exact Hv|]. split; [|intros _; exact Hv].
    destruct (_ && _ && _); constructor; [exact Hv | constructor].
Qed.

Lemma reconcile_never_readds_witness :
  ~ In "Kickoff" (names (List.tl (List.tl (template_with []))))
  /\ ~ In "Kickoff" (names (reconcileStages (List.tl (List.tl (template_with []))))).
Proof.
  assert (H : ~ In "Kickoff" (names (List.tl (List.tl (template_with []))))).
  { simpl. intuition discriminate. }
  split; [exact H|].
  exact (proj1 (reconcile_never_readds (mountCard None) _ _ H)).
Defined.

(** ** The candidate view of a reordering *)

Lemma staticStagesPresent_eq (ps : list Stage) :
  staticStagesPresent ps =
  map (withStatic true) (List.filter (fun s => includes STATIC_PENTEST_STAGES (stage s)) ps).
Proof.
  unfold staticStagesPresent, existingStages.
  induction ps as [|a ps IH]; [reflexivity|]. cbn [map List.filter].
  destruct (includes STATIC_PENTEST_STAGES (stage a)); cbn [isStatic withStatic negb];
    rewrite IH; reflexivity.
Qed.

Lemma customStages_eq (ps : list Stage) :
  customStages ps =
  map (withStatic false)
      (List.filter (fun s => negb (includes STATIC_PENTEST_STAGES (stage s))) ps).
Proof.
  unfold customStages, existingStages.
  induction ps as [|a ps IH]; [reflexivity|]. cbn [map List.filter].
  destruct (includes STATIC_PENTEST_STAGES (stage a)); cbn [isStatic withStatic negb];
    rewrite IH; reflexivity.
Qed.

Lemma find_map {A B} (p : B -> bool) (f : A -> B) (l : list A) :
  List.find p (map f l) = option_map f (List.find (fun x => p (f x)) l).
Proof.
  induction l as [|a l IH]; simpl; [reflexivity|]. destruct (p (f a)); auto.
Qed.

Lemma find_hd {A} (p : A -> bool) (l : list A) :
  List.find p l = hd_error (List.filter p l).
Proof.
  induction l as [|a l IH]; simpl; [reflexivity|]. destruct (p a); auto.
Qed.

Lemma filter_named_count (l : list Stage) (n : string) :
  length (List.filter (fun s => String.eqb (stage s) n) l) =
  count_occ string_dec (map stage l) n.
Proof.
  induction l as [|a l IH]; simpl; [reflexivity|].
  destruct (string_dec (stage a) n) as [->|Hne].
  - rewrite String.eqb_refl. simpl. rewrite IH. reflexivity.
  - apply String.eqb_neq in Hne. rewrite Hne. exact IH.
Qed.

(** Stages named after a template stage are all static. *)
Lemma filter_named_static (ps : list Stage) (n : string) :
  includes STATIC_PENTEST_STAGES n = true ->
  List.filter (fun s => String.eqb (stage s) n)
    (List.filter (fun s => includes STATIC_PENTEST_STAGES (stage s)) ps) =
  List.filter (fun s => String.eqb (stage s) n) ps.
Proof.
  intros Hn. induction ps as [|a ps IH]; [reflexivity|]. cbn [List.filter].
  destruct (String.eqb (stage a) n) eqn:He.
  - apply String.eqb_eq in He. rewrite He, Hn. cbn [List.filter].
    rewrite He, String.eqb_refl, IH. reflexivity.
  - destruct (includes STATIC_PENTEST_STAGES (stage a)); cbn [List.filter];
      [rewrite He|]; exact IH.
Qed.

Lemma match_hd_short {A B} (f : A -> B) (l : list A) :
  (length l <= 1)%nat ->
  match option_map f (hd_error l) with Some s => [s] | None => [] end = map f l.
Proof.
  destruct l as [|a [|b l]]; simpl; intros H; [reflexivity|reflexivity|lia].
Qed.

Lemma flat_map_ext_in {A B} (f g : A -> list B) (L : list A) :
  (forall n, In n L -> f n = g n) -> flat_map f L = flat_map g L.
Proof.
  induction L as [|a L IH]; simpl; intros H; [reflexivity|].
  rewrite H by (left; reflexivity). rewrite IH; [reflexivity|].
  intros n Hn. apply H. right. exact Hn.
Qed.

(** With no duplicated static names, a template name names at most one
    input stage. *)
Lemma filter_named_short (ps : list Stage) (n : string) :
  List.NoDup (staticStagesInProject ps) ->
  includes STATIC_PENTEST_STAGES n = true ->
  (length (List.filter (fun s => String.eqb (stage s) n) ps) <= 1)%nat.
Proof.
  intros Hnd Hn. rewrite <- (filter_named_static ps n Hn), filter_named_count.
  unfold staticStagesInProject in Hnd.
  pose proof (proj1 (NoDup_count_occ' string_dec _) Hnd) as Hc.
  destruct (in_dec string_dec n
    (map stage (List.filter (fun s => includes STATIC_PENTEST_STAGES (stage s)) ps)))
    as [Hin|Hout].
  - rewrite (Hc n Hin). lia.
  - apply (count_occ_not_In string_dec) in Hout. rewrite Hout. lia.
Qed.

(** With no duplicated static names, each template stage present is taken
    once, as the input stage marked static. *)
Lemma reorderedStaticStages_eq (ps : list Stage) :
  List.NoDup (staticStagesInProject ps) ->
  reorderedStaticStages ps =
  flat_map (fun n => map (withStatic true)
                         (List.filter (fun s => String.eqb (stage s) n) ps))
           STATIC_PENTEST_STAGES.
Proof.
  intros Hnd. unfold reorderedStaticStages.
  apply flat_map_ext_in. intros n Hn.
  apply includes_true_iff in Hn.
  unfold findStage. rewrite staticStagesPresent_eq, find_map. cbn [stage withStatic].
  rewrite find_hd, filter_named_static by exact Hn.
  apply match_hd_short, filter_named_short; assumption.
Qed.

Lemma filter_named_nil (ps : list Stage) (n : string) :
  List.filter (fun s => String.eqb (stage s) n) ps = [] ->
  includes (names ps) n = false.
Proof.
  intros H. destruct (includes (names ps) n) eqn:Hi; [|reflexivity].
  apply includes_true_iff in Hi. unfold names in Hi.
  apply in_map_iff in Hi as [s [Hs Hin]].
  assert (In s (List.filter (fun s => String.eqb (stage s) n) ps)) as Hf.
  { apply List.filter_In. split; [exact Hin|]. apply String.eqb_eq. exact Hs. }
  rewrite H in Hf. destruct Hf.
Qed.

Lemma reordered_names (ps : list Stage) (L : list string) :
  (forall n, In n L -> (length (List.filter (fun s => String.eqb (stage s) n) ps) <= 1)%nat) ->
  map stage (flat_map (fun n => map (withStatic true)
                                    (List.filter (fun s => String.eqb (stage s) n) ps)) L) =
  List.filter (fun n => includes (names ps) n) L.
Proof.
  induction L as [|n L IH]; intros Hs; [reflexivity|].
  cbn [flat_map List.filter]. rewrite map_app, IH
    by (intros m Hm; apply Hs; right; exact Hm).
  specialize (Hs n (or_introl eq_refl)).
  destruct (List.filter (fun s => String.eqb (stage s) n) ps) as [|x [|y r]] eqn:Hf.
  - rewrite (filter_named_nil ps n Hf). reflexivity.
  - assert (Hx : In x (List.filter (fun s => String.eqb (stage s) n) ps))
      by (rewrite Hf; left; reflexivity).
    apply List.filter_In in Hx as [Hx He]. apply String.eqb_eq in He.
    assert (includes (names ps) n = true) as ->.
    { apply includes_true_iff. rewrite <- He. apply in_map. exact Hx. }
    simpl. rewrite He. reflexivity.
  - simpl in Hs. lia.
Qed.


Lemma STATIC_nodup : List.NoDup STATIC_PENTEST_STAGES.
Proof. repeat constructor; simpl; intuition discriminate. Qed.

Lemma someDiffers_false (xs ys : list string) :
  length xs = length ys -> someDiffers xs ys = false -> xs = ys.
Proof.
  revert ys. induction xs as [|x xs IH]; intros [|y ys]; simpl; intros Hl H;
    try discriminate; [reflexivity|].
  apply orb_false_iff in H as [Hxy Hr].
  apply negb_false_iff, String.eqb_eq in Hxy. subst.
  f_equal. apply IH; [lia | exact Hr].
Qed.

Lemma staticStagesInOrder_eq (ps : list Stage) :
  List.NoDup (staticStagesInProject ps) ->
  staticStagesInOrder ps = List.filter (fun n => includes (names ps) n) STATIC_PENTEST_STAGES.
Proof.
  intros Hnd. unfold staticStagesInOrder. rewrite reorderedStaticStages_eq by exact Hnd.
  apply reordered_names. intros n Hn.
  apply filter_named_short; [exact Hnd | apply includes_true_iff; exact Hn].
Qed.

Lemma static_names_same_elements (ps : list Stage) (x : string) :
  In x (staticStagesInProject ps) <->
  In x (List.filter (fun n => includes (names ps) n) STATIC_PENTEST_STAGES).
Proof.
  unfold staticStagesInProject, names. rewrite List.filter_In, includes_true_iff.
  rewrite in_map_iff. split.
  - intros [s [<- Hs]]. apply List.filter_In in Hs as [Hs Hst].
    apply includes_true_iff in Hst. split; [exact Hst|]. apply in_map. exact Hs.
  - intros [Hst Hin]. apply in_map_iff in Hin as [s [<- Hs]].
    exists s. split; [reflexivity|]. apply List.filter_In. split; [exact Hs|].
    apply includes_true_iff. exact Hst.
Qed.

(** With no duplicated static names, the static names of the input and of
    the candidate view have the same length. *)
Lemma static_lengths_eq (ps : list Stage) :
  List.NoDup (staticStagesInProject ps) ->
  length (staticStagesInProject ps) = length (staticStagesInOrder ps).
Proof.
  intros Hnd. rewrite staticStagesInOrder_eq by exact Hnd.
  apply Nat.le_antisymm; apply NoDup_incl_length.
  - exact Hnd.
  - intros x. apply static_names_same_elements.
  - apply List.NoDup_filter, STATIC_nodup.
  - intros x. apply static_names_same_elements.
Qed.

(** C3: on a persisted list whose static stages are all distinct but not in
    template order, a pass that is not skipped by the fingerprint guard shows
    the statics in template order (each the input stage marked static)
    followed by the custom stages in input order, and schedules exactly one
    corrective write of that view with the progress it recomputes
    ([correctiveProgress]). *)
Theorem reconcile_reorders_with_one_write (st : CardState) (ps : list Stage) :
  ~ skipped st (Some ps) ->
  List.NoDup (staticStagesInProject ps) ->
  staticStagesInProject ps <>
    List.filter (fun n => includes (names ps) n) STATIC_PENTEST_STAGES ->
  pentestStages (fst (reconcileEffect st (Some ps))) =
    (flat_map (fun n => map (withStatic true)
                           (List.filter (fun s => String.eqb (stage s) n) ps))
             STATIC_PENTEST_STAGES
    ++ map (withStatic false)
           (List.filter (fun s => negb (includes STATIC_PENTEST_STAGES (stage s))) ps))%list /\
  names (pentestStages (fst (reconcileEffect st (Some ps)))) =
    (List.filter (fun n => includes (names ps) n) STATIC_PENTEST_STAGES
     ++ names (List.filter (fun s => negb (includes STATIC_PENTEST_STAGES (stage s))) ps))%list /\
  snd (reconcileEffect st (Some ps)) = [PStagesProgress (pentestStages (fst (reconcileEffect st (Some ps)))) (correctiveProgress (pentestStages (fst (reconcileEffect st (Some ps)))))].
Proof.
  intros Hns Hnd Hord.
  rewrite (reconcileEffect_run _ _ Hns).
  assert (Hl := static_lengths_eq ps Hnd).
  assert (Ho : orderChanged ps = true).
  { unfold orderChanged. rewrite Hl, Nat.eqb_refl. simpl.
    destruct (someDiffers _ _) eqn:Hd; [reflexivity|].
    apply someDiffers_false in Hd; [|exact Hl].
    rewrite staticStagesInOrder_eq in Hd by exact Hnd. contradiction. }
  assert (Hp : (0 <? length ps)%nat = true).
  { destruct ps as [|s ps']; [|reflexivity]. exfalso. apply Hord. reflexivity. }
  rewrite Ho, Hp, Hl, Nat.eqb_refl. simpl.
  assert (Hv : reconcileStages ps = app
    (flat_map (fun n => map (withStatic true)
                           (List.filter (fun s => String.eqb (stage s) n) ps))
             STATIC_PENTEST_STAGES)
    (map (withStatic false)
           (List.filter (fun s => negb (includes STATIC_PENTEST_STAGES (stage s))) ps))).
  { unfold reconcileStages. rewrite reorderedStaticStages_eq, customStages_eq by exact Hnd.
    reflexivity. }
  split; [exact Hv|]. split; [|reflexivity].
  rewrite Hv. unfold names at 1. rewrite map_app, reordered_names.
  - unfold names. rewrite map_map. reflexivity.
  - intros n Hn. apply filter_named_short; [exact Hnd | apply includes_true_iff; exact Hn].
Qed.

Lemma reconcile_reorders_with_one_write_witness :
  ~ skipped (mountCard (Some reorder_example)) (Some reorder_example) /\
  List.NoDup (staticStagesInProject reorder_example) /\
  staticStagesInProject reorder_example <>
    List.filter (fun n => includes (names reorder_example) n) STATIC_PENTEST_STAGES /\
  names (pentestStages (fst (reconcileEffect (mountCard (Some reorder_example))
                                             (Some reorder_example)))) =
    ["Ticket Assigned"; "Kickoff"; "Scope review"].
Proof.
  assert (H1 : ~ skipped (mountCard (Some reorder_example)) (Some reorder_example)).
  { unfold skipped. simpl. discriminate. }
  assert (H2 : List.NoDup (staticStagesInProject reorder_example)).
  { simpl. repeat constructor; simpl; intuition discriminate. }
  assert (H3 : staticStagesInProject reorder_example <>
    List.filter (fun n => includes (names reorder_example) n) STATIC_PENTEST_STAGES).
  { vm_compute. discriminate. }
  split; [exact H1|]. split; [exact H2|]. split; [exact H3|].
  rewrite (proj1 (proj2 (reconcile_reorders_with_one_write _ _ H1 H2 H3))).
  reflexivity.
Defined.

(** C1: on [swapped_template] the corrective write carries the share of
    done stages, [Math.round(1 / 15 * 100) = 7], while the weighted
    progress of the same stages ([calculateWeightedProgress]) is 0:
    [Ticket Assigned] is in no weighted group. *)
Theorem corrective_write_progress_not_weighted :
  snd (reconcileEffect (mountCard (Some swapped_template)) (Some swapped_template)) =
    [PStagesProgress (reconcileStages swapped_template) 7] /\
  calculateWeightedProgress (reconcileStages swapped_template) = 0.
Proof. split; vm_compute; reflexivity. Qed.

(** ** [initializePentestStages] *)

Lemma fold_insert_lookup (l : list Stage) (m : gmap string Stage) (n : string) :
  fold_left (fun m s => <[stage s := s]> m) l m !! n =
  fold_left (fun acc s => if String.eqb (stage s) n then Some s else acc) l (m !! n).
Proof.
  revert m. induction l as [|a l IH]; intros m; simpl; [reflexivity|].
  rewrite IH. f_equal.
  destruct (String.eqb (stage a) n) eqn:He.
  - apply String.eqb_eq in He. rewrite He. apply lookup_insert_eq.
  - apply String.eqb_neq in He. apply lookup_insert_ne. exact He.
Qed.

Lemma lastNamed_stage_gen (n : string) (l : list Stage) (acc : option Stage) (e : Stage) :
  (forall e', acc = Some e' -> stage e' = n) ->
  fold_left (fun acc s => if String.eqb (stage s) n then Some s else acc) l acc = Some e ->
  stage e = n.
Proof.
  revert acc. induction l as [|a l IH]; intros acc Hacc; simpl.
  - apply Hacc.
  - apply IH. intros e' He'.
    destruct (String.eqb (stage a) n) eqn:Ha.
    + injection He' as <-. apply String.eqb_eq. exact Ha.
    + apply Hacc. exact He'.
Qed.

Lemma lastNamed_stage (n : string) (l : list Stage) (e : Stage) :
  lastNamed n l = Some e -> stage e = n.
Proof. apply lastNamed_stage_gen. discriminate. Qed.

(** C10: [initializePentestStages] lists every template stage, in template
    order, each one being the last persisted stage of that name marked
    static (keeping its [done] and [date]) or, when the name is missing, a
    fresh undone stage; the custom stages follow in input order.  In
    particular all 15 template names are present, also those missing from
    the persisted list, whereas a reconciliation pass never re-adds them
    ([reconcile_never_readds]). *)
Theorem initialize_restores_all_statics (ps : option (list Stage)) :
  let l := match ps with Some l => l | None => [] end in
  initializePentestStages ps =
    (map (fun n => match lastNamed n l with
                   | Some e => withStatic true e
                   | None => mkStage n false None true
                   end) STATIC_PENTEST_STAGES
     ++ List.filter (fun s => negb (includes STATIC_PENTEST_STAGES (stage s))) l)%list /\
  names (initializePentestStages ps) =
    (STATIC_PENTEST_STAGES
     ++ names (List.filter (fun s => negb (includes STATIC_PENTEST_STAGES (stage s))) l))%list.
Proof.
  intros l.
  assert (Hinit : initializePentestStages ps =
    (map (fun n => match lastNamed n l with
                   | Some e => withStatic true e
                   | None => mkStage n false None true
                   end) STATIC_PENTEST_STAGES
     ++ List.filter (fun s => negb (includes STATIC_PENTEST_STAGES (stage s))) l)%list).
  { unfold initializePentestStages, l. f_equal; [|destruct ps; reflexivity].
    apply map_ext. intros n.
    destruct ps as [l'|]; [|reflexivity].
    destruct (0 <? length l')%nat eqn:Hlen.
    - rewrite fold_insert_lookup, lookup_empty. reflexivity.
    - apply Nat.ltb_ge in Hlen. destruct l'; [reflexivity | simpl in Hlen; lia]. }
  split; [exact Hinit|].
  rewrite Hinit. unfold names. rewrite map_app, map_map. f_equal.
  rewrite <- (map_id STATIC_PENTEST_STAGES) at 2. apply map_ext. intros n.
  destruct (lastNamed n l) as [e|] eqn:He; [|reflexivity].
  apply lastNamed_stage in He. exact He.
Qed.

(** ** Toggles *)

(** Toggling a stage writes the current timestamp when it becomes done and
    clears it when it becomes undone. *)
Lemma toggle_stage_date (now : string) (stages : list Stage) (index : nat) (s : Stage) :
  nth_error stages index = Some s ->
  exists updated writes,
    handleToggleStage false now stages index = Ok updated writes [] /\
    exists s', updated !! index = Some s' /\
      ((done s' = true /\ date s' = Some now) \/ (done s' = false /\ date s' = None)).
Proof.
  intros Hs. unfold handleToggleStage. rewrite Hs.
  do 2 eexists. split; [reflexivity|].
  eexists. split.
  - apply list_lookup_insert_eq. apply nth_error_Some. rewrite Hs. discriminate.
  - destruct (done s); simpl; [right | left]; split; reflexivity.
Qed.

(** C6: toggling a done test item back to undone keeps its old timestamp:
    the item [SQL injection], done on 2024-01-02, becomes undone with that
    date still set (whereas [handleToggleStage] clears it, [toggle_stage_date]). *)
Theorem toggle_test_keeps_date_when_undone :
  handleToggleTest false "2024-01-03T12:00:00.000Z"
    [TestItem.mk "SQL injection" true (Some "2024-01-02T10:00:00.000Z")] 0 =
  Ok [TestItem.mk "SQL injection" false (Some "2024-01-02T10:00:00.000Z")]
     [PTests [TestItem.mk "SQL injection" false (Some "2024-01-02T10:00:00.000Z")]] [].
Proof. reflexivity. Qed.

(** ** Completing an engagement *)

(** C7: completing persists status ["past"], the completion time, the leave
    days and [max(0, calculateBusinessDays(startDate, now) - leaveDays)];
    from Monday 2024-01-01 to Friday 2024-01-05 with one day of leave this
    is 4. *)
Theorem complete_engagement_business_days
    (now : Date) (nowIso : string) (startDate : Date) (leaveDays : Z) :
  handleCompleteProject false now nowIso (Some startDate) leaveDays =
    [PComplete "past" nowIso leaveDays
       (Z.max 0 (calculateBusinessDays (Some startDate) (Some now) - leaveDays))] /\
  handleCompleteProject false (mkDate 19727 61200000) "2024-01-05T17:00:00.000Z"
    (Some (mkDate 19723 32400000)) 1 =
    [PComplete "past" "2024-01-05T17:00:00.000Z" 1 4].
Proof. split; reflexivity. Qed.

(** ** Deleting a stage *)

Lemma removeIndex_eq {A} (l : list A) (index : nat) :
  removeIndex l index = (firstn index l ++ skipn (S index) l)%list.
Proof.
  revert index. induction l as [|x l IH]; intros [|i]; simpl; try reflexivity.
  rewrite IH. reflexivity.
Qed.

(** C9: deleting a static stage is refused with an alert, leaves the list
    unchanged and writes nothing; deleting a custom stage removes exactly
    that stage and persists the list with its weighted progress. *)
Theorem delete_stage_static_refused (stages : list Stage) (index : nat) (s : Stage) :
  nth_error stages index = Some s ->
  (isStatic s = true ->
     handleDeleteStage stages index =
       Ok stages [] ["Cannot delete static pentesting stages"]) /\
  (isStatic s = false ->
     let updated := (firstn index stages ++ skipn (S index) stages)%list in
     handleDeleteStage stages index =
       Ok updated [PStagesProgress updated (calculateWeightedProgress updated)] []).
Proof.
  intros Hs. unfold handleDeleteStage. rewrite Hs. split; intros Hst; rewrite Hst.
  - reflexivity.
  - rewrite removeIndex_eq. reflexivity.
Qed.

Lemma delete_stage_static_refused_witness :
  nth_error (template_with []) 1 = Some (mkStage "Kickoff" false None true) /\
  handleDeleteStage (template_with []) 1 =
    Ok (template_with []) [] ["Cannot delete static pentesting stages"].
Proof.
  assert (H : nth_error (template_with []) 1 = Some (mkStage "Kickoff" false None true))
    by reflexivity.
  split; [exact H|].
  exact (proj1 (delete_stage_static_refused _ _ _ H) eq_refl).
Defined.

(** * Further properties of the card *)

(** ** Business days *)

Lemma days_from_app (s : Z) (n k : nat) :
  days_from s (n + k) = (days_from s n ++ days_from (s + Z.of_nat n) k)%list.
Proof.
  revert s. induction n as [|n IH]; intros s; simpl.
  - rewrite Z.add_0_r. reflexivity.
  - rewrite IH. do 3 f_equal. lia.
Qed.

Lemma business_count_le (s : Z) (n : nat) :
  (length (List.filter (fun d => negb (isWeekend d)) (days_from s n)) <= n)%nat.
Proof.
  revert s. induction n as [|n IH]; intros s; simpl; [lia|].
  destruct (negb (isWeekend s)); simpl; specialize (IH (s + 1)); lia.
Qed.

Lemma business_days_split_gen (s m e t1 t2 t3 t4 : Z) :
  s <= m + 1 -> m <= e ->
  calculateBusinessDays (Some (mkDate s t1)) (Some (mkDate e t2)) =
  calculateBusinessDays (Some (mkDate s t1)) (Some (mkDate m t3)) +
  calculateBusinessDays (Some (mkDate (m + 1) t4)) (Some (mkDate e t2)).
Proof.
  intros H1 H2. unfold calculateBusinessDays, setHours0, eachDayOfInterval; simpl.
  destruct (e <? s) eqn:Hes.
  { apply Z.ltb_lt in Hes.
    replace (m <? s) with true by (symmetry; apply Z.ltb_lt; lia).
    replace (e <? m + 1) with true by (symmetry; apply Z.ltb_lt; lia).
    reflexivity. }
  apply Z.ltb_ge in Hes.
  replace (Z.to_nat (e - s + 1)) with (Z.to_nat (m - s + 1) + Z.to_nat (e - m))%nat by lia.
  rewrite days_from_app, List.filter_app, length_app, Nat2Z.inj_add.
  replace (s + Z.of_nat (Z.to_nat (m - s + 1))) with (m + 1) by lia.
  replace (Z.to_nat (e - m)) with (Z.to_nat (e - (m + 1) + 1)) by lia.
  destruct (m <? s) eqn:Hms.
  - apply Z.ltb_lt in Hms. replace (Z.to_nat (m - s + 1)) with 0%nat by lia.
    destruct (e <? m + 1) eqn:Hem; [apply Z.ltb_lt in Hem; lia|]. reflexivity.
  - destruct (e <? m + 1) eqn:Hem; [|reflexivity].
    apply Z.ltb_lt in Hem. replace (Z.to_nat (e - (m + 1) + 1)) with 0%nat by lia.
    simpl. lia.
Qed.

(** The business days of an interval split at any day [m] add up: the days
    up to [m] plus the days from [m + 1]. *)
Theorem business_days_split (s m e t1 t2 t3 t4 : Z) :
  s <= m + 1 -> m <= e ->
  calculateBusinessDays (Some (mkDate s t1)) (Some (mkDate e t2)) =
  calculateBusinessDays (Some (mkDate s t1)) (Some (mkDate m t3)) +
  calculateBusinessDays (Some (mkDate (m + 1) t4)) (Some (mkDate e t2)).
Proof. apply business_days_split_gen. Qed.

Lemma business_days_split_witness :
  (19723 <= 19725 + 1 /\ 19725 <= 19729) /\
  calculateBusinessDays (Some (mkDate 19723 0)) (Some (mkDate 19729 0)) =
  calculateBusinessDays (Some (mkDate 19723 0)) (Some (mkDate 19725 0)) +
  calculateBusinessDays (Some (mkDate (19725 + 1) 0)) (Some (mkDate 19729 0)).
Proof.
  split; [lia|]. apply business_days_split; lia.
Defined.

Lemma isWeekend_shift (a q : Z) : isWeekend (a + 7 * q) = isWeekend a.
Proof.
  unfold isWeekend, getDay.
  replace (a + 7 * q + 4) with (a + 4 + q * 7) by lia.
  rewrite Z.mod_add by lia. reflexivity.
Qed.

Lemma business_count_shift (a q : Z) (n : nat) :
  length (List.filter (fun d => negb (isWeekend d)) (days_from (a + 7 * q) n)) =
  length (List.filter (fun d => negb (isWeekend d)) (days_from a n)).
Proof.
  revert a. induction n as [|n IH]; intros a; simpl; [reflexivity|].
  rewrite isWeekend_shift.
  replace (a + 7 * q + 1) with ((a + 1) + 7 * q) by lia.
  destruct (negb (isWeekend a)); simpl; rewrite IH; reflexivity.
Qed.

Lemma business_count_week (d : Z) :
  length (List.filter (fun d => negb (isWeekend d)) (days_from d 7)) = 5%nat.
Proof.
  rewrite (Z.div_mod d 7) by lia.
  replace (7 * (d / 7) + d mod 7) with (d mod 7 + 7 * (d / 7)) by lia.
  rewrite business_count_shift.
  pose proof (Z.mod_pos_bound d 7 ltac:(lia)) as Hb.
  assert (d mod 7 = 0 \/ d mod 7 = 1 \/ d mod 7 = 2 \/ d mod 7 = 3 \/
          d mod 7 = 4 \/ d mod 7 = 5 \/ d mod 7 = 6) as Hr by lia.
  destruct Hr as [-> | [-> | [-> | [-> | [-> | [-> | ->]]]]]]; reflexivity.
Qed.

(** Any run of [k] whole weeks (7 k consecutive days, whatever the first
    day) holds exactly 5 k business days. *)
Theorem business_days_whole_weeks (s t1 t2 : Z) (k : nat) :
  calculateBusinessDays (Some (mkDate s t1)) (Some (mkDate (s + 7 * Z.of_nat k - 1) t2)) =
  5 * Z.of_nat k.
Proof.
  unfold calculateBusinessDays, setHours0, eachDayOfInterval; simpl.
  destruct k as [|k].
  - replace (s + 7 * Z.of_nat 0 - 1 <? s) with true by (symmetry; apply Z.ltb_lt; lia).
    reflexivity.
  - destruct (s + 7 * Z.of_nat (S k) - 1 <? s) eqn:H; [apply Z.ltb_lt in H; lia|].
    replace (Z.to_nat (s + 7 * Z.of_nat (S k) - 1 - s + 1)) with (7 * S k)%nat by lia.
    clear H. induction (S k) as [|j IH] in s |- *; [reflexivity|].
    replace (7 * S j)%nat with (7 + 7 * j)%nat by lia.
    rewrite days_from_app, List.filter_app, length_app, business_count_week.
    rewrite Nat2Z.inj_add, IH. lia.
Qed.

(** Business days are never negative and never more than the calendar days
    of the interval; a missing date gives 0. *)
Theorem business_days_bounds (sd ed : Date) :
  0 <= calculateBusinessDays (Some sd) (Some ed) <= Z.max 0 (day ed - day sd + 1) /\
  calculateBusinessDays None (Some ed) = 0 /\
  calculateBusinessDays (Some sd) None = 0.
Proof.
  split; [|split; reflexivity].
  unfold calculateBusinessDays, setHours0, eachDayOfInterval; simpl.
  destruct (day ed <? day sd) eqn:H; [lia|].
  apply Z.ltb_ge in H.
  pose proof (business_count_le (day sd) (Z.to_nat (day ed - day sd + 1))). lia.
Qed.

(** ** Progress values *)

Lemma filter_and_le {A} (p q : A -> bool) (l : list A) :
  (length (List.filter (fun x => p x && q x) l) <= length (List.filter p l))%nat.
Proof.
  induction l as [|a l IH]; simpl; [lia|].
  destruct (p a), (q a); simpl; lia.
Qed.

Lemma filter_le {A} (p : A -> bool) (l : list A) :
  (length (List.filter p l) <= length l)%nat.
Proof. induction l as [|a l IH]; simpl; [lia|]. destruct (p a); simpl; lia. Qed.

(** A share [c / t * w] of a weight, with [c <= t], lies in [0, w]. *)
Lemma share_bounds (c t : nat) (w : Q) :
  (c <= t)%nat -> (0 <= w)%Q ->
  (0 <= (if (0 <? t)%nat then natQ c / natQ t * w else 0) <= w)%Q.
Proof.
  intros Hct Hw. destruct (0 <? t)%nat eqn:Ht; [|split; [apply Qle_refl | exact Hw]].
  apply Nat.ltb_lt in Ht.
  assert (Htq : (0 < natQ t)%Q).
  { unfold natQ. change 0%Q with (inject_Z 0). rewrite <- Zlt_Qlt. lia. }
  assert (Hc0 : (0 <= natQ c / natQ t)%Q).
  { apply Qle_shift_div_l; [exact Htq|]. rewrite Qmult_0_l.
    unfold natQ. change 0%Q with (inject_Z 0). rewrite <- Zle_Qle. lia. }
  assert (Hc1 : (natQ c / natQ t <= 1)%Q).
  { apply Qle_shift_div_r; [exact Htq|]. rewrite Qmult_1_l.
    unfold natQ. rewrite <- Zle_Qle. lia. }
  split.
  - apply Qmult_le_0_compat; assumption.
  - rewrite <- (Qmult_1_l w) at 2. apply Qmult_le_compat_r; assumption.
Qed.

Lemma groupPct_bounds (g : list string) (l : list Stage) (w : Z) :
  0 <= w ->
  (0 <= groupPct (groupCompleted g l) (groupTotal g l) w <= inject_Z w)%Q.
Proof.
  intros Hw. unfold groupPct. apply share_bounds.
  - apply filter_and_le.
  - change 0%Q with (inject_Z 0). rewrite <- Zle_Qle. exact Hw.
Qed.

Lemma Math_round_bounds (x : Q) (hi : Z) :
  (0 <= x)%Q -> (x <= inject_Z hi)%Q -> 0 <= Math_round x <= hi.
Proof.
  intros H0 H1. unfold Math_round. split.
  - change 0 with (Qfloor 0). apply Qfloor_resp_le.
    apply (Qle_trans _ x); [exact H0|].
    rewrite <- (Qplus_0_r x) at 1. apply Qplus_le_r. discriminate.
  - assert (Hlt : (x + (1 # 2) < inject_Z (hi + 1))%Q).
    { rewrite inject_Z_plus, (Qplus_comm x), (Qplus_comm (inject_Z hi)).
      apply Qplus_lt_le_compat; [reflexivity|exact H1]. }
    pose proof (Qfloor_le (x + (1 # 2))) as Hf.
    assert (Hq : (inject_Z (Qfloor (x + (1 # 2))) < inject_Z (hi + 1))%Q)
      by (eapply Qle_lt_trans; eassumption).
    rewrite <- Zlt_Qlt in Hq. lia.
Qed.

(** The weighted progress of any stage list lies between 0 and 100. *)
Theorem weighted_progress_bounds (stages : list Stage) :
  0 <= calculateWeightedProgress stages <= 100.
Proof.
  unfold calculateWeightedProgress.
  destruct (groupPct_bounds PREPARATION_STAGES stages 10 ltac:(lia)) as [Hp0 Hp1].
  destruct (groupPct_bounds MAIN_TESTING_STAGES stages 80 ltac:(lia)) as [Hm0 Hm1].
  destruct (groupPct_bounds FINAL_STAGES stages 10 ltac:(lia)) as [Hf0 Hf1].
  apply Math_round_bounds.
  - rewrite <- (Qplus_0_l 0), <- (Qplus_0_l 0) at 1.
    repeat apply Qplus_le_compat; assumption.
  - change (inject_Z 100) with (inject_Z 10 + inject_Z 80 + inject_Z 10)%Q.
    repeat apply Qplus_le_compat; assumption.
Qed.

(** The progress of the corrective write lies between 0 and 100. *)
Theorem corrective_progress_bounds (stages : list Stage) :
  0 <= correctiveProgress stages <= 100.
Proof.
  unfold correctiveProgress.
  destruct (0 <? length stages)%nat eqn:Ht; [|lia].
  apply Math_round_bounds.
  all: pose proof (share_bounds (length (List.filter done stages)) (length stages) 100
                     (filter_le done stages) ltac:(discriminate)) as [H0 H1];
       rewrite Ht in H0, H1; assumption.
Qed.

(** The share of finished tests lies between 0 and 100. *)
Theorem tests_progress_bounds (tests : list TestItem.t) :
  (0 <= testsProgress tests <= 100)%Q.
Proof.
  unfold testsProgress. apply share_bounds; [apply filter_le | discriminate].
Qed.

Lemma group_counts_skip (g : list string) (l1 l2 : list Stage) (s : Stage) :
  includes g (stage s) = false ->
  groupCompleted g (l1 ++ s :: l2) = groupCompleted g (l1 ++ l2) /\
  groupTotal g (l1 ++ s :: l2) = groupTotal g (l1 ++ l2).
Proof.
  intros H. unfold groupCompleted, groupTotal.
  rewrite !List.filter_app. cbn [List.filter]. rewrite H. simpl. split; reflexivity.
Qed.

(** A stage whose name is in none of the three weighted groups (such as
    [Ticket Assigned] or any custom stage) has no effect on the weighted
    progress, whatever its position and [done] flag. *)
Theorem weighted_progress_ignores_ungrouped (l1 l2 : list Stage) (s : Stage) :
  includes PREPARATION_STAGES (stage s) = false ->
  includes MAIN_TESTING_STAGES (stage s) = false ->
  includes FINAL_STAGES (stage s) = false ->
  calculateWeightedProgress (l1 ++ s :: l2) = calculateWeightedProgress (l1 ++ l2).
Proof.
  intros Hp Hm Hf. unfold calculateWeightedProgress.
  destruct (group_counts_skip _ l1 l2 s Hp) as [-> ->].
  destruct (group_counts_skip _ l1 l2 s Hm) as [-> ->].
  destruct (group_counts_skip _ l1 l2 s Hf) as [-> ->].
  reflexivity.
Qed.

Lemma weighted_progress_ignores_ungrouped_witness :
  (includes PREPARATION_STAGES "Ticket Assigned" = false /\
   includes MAIN_TESTING_STAGES "Ticket Assigned" = false /\
   includes FINAL_STAGES "Ticket Assigned" = false) /\
  calculateWeightedProgress
    ([] ++ mkStage "Ticket Assigned" true (Some "2024-01-01T09:00:00.000Z") true
        :: skipn 1 (template_with ["Kickoff"]))%list =
  calculateWeightedProgress ([] ++ skipn 1 (template_with ["Kickoff"]))%list.
Proof.
  split; [repeat split|].
  apply weighted_progress_ignores_ungrouped; reflexivity.
Defined.

Lemma withStatic_self (s : Stage) : withStatic (isStatic s) s = s.
Proof. destruct s; reflexivity. Qed.

Lemma existingStages_inv (ps : list Stage) (s : Stage) :
  In s (existingStages ps) -> isStatic s = includes STATIC_PENTEST_STAGES (stage s).
Proof.
  unfold existingStages. intros H. apply in_map_iff in H as [x [<- _]]. reflexivity.
Qed.

Lemma existingStages_fixed (l : list Stage) :
  (forall s, In s l -> isStatic s = includes STATIC_PENTEST_STAGES (stage s)) ->
  existingStages l = l.
Proof.
  unfold existingStages. induction l as [|a l IH]; intros H; [reflexivity|].
  cbn [map]. rewrite <- (H a (or_introl eq_refl)), withStatic_self, IH; [reflexivity|].
  intros s Hs. apply H. right. exact Hs.
Qed.

Lemma filter_all {A} (p : A -> bool) (l : list A) :
  (forall x, In x l -> p x = true) -> List.filter p l = l.
Proof.
  induction l as [|a l IH]; intros H; [reflexivity|]. cbn [List.filter].
  rewrite (H a (or_introl eq_refl)), IH; [reflexivity|].
  intros x Hx. apply H. right. exact Hx.
Qed.

Lemma filter_none {A} (p : A -> bool) (l : list A) :
  (forall x, In x l -> p x = false) -> List.filter p l = [].
Proof.
  induction l as [|a l IH]; intros H; [reflexivity|]. cbn [List.filter].
  rewrite (H a (or_introl eq_refl)), IH; [reflexivity|].
  intros x Hx. apply H. right. exact Hx.
Qed.

Lemma reordered_In (ps : list Stage) (s : Stage) :
  In s (reorderedStaticStages ps) -> In s (staticStagesPresent ps).
Proof.
  unfold reorderedStaticStages. intros H. apply in_flat_map in H as [n [_ Hn]].
  destruct (findStage n (staticStagesPresent ps)) as [x|] eqn:Hf; [|destruct Hn].
  destruct Hn as [<-|[]]. apply (find_some _ _ Hf).
Qed.

Lemma reordered_static (ps : list Stage) (s : Stage) :
  In s (reorderedStaticStages ps) ->
  isStatic s = true /\ includes STATIC_PENTEST_STAGES (stage s) = true.
Proof.
  intros H. apply reordered_In in H. unfold staticStagesPresent in H.
  apply List.filter_In in H as [Hin Hs]. rewrite <- (existingStages_inv _ _ Hin).
  split; exact Hs.
Qed.

Lemma custom_not_static (ps : list Stage) (s : Stage) :
  In s (customStages ps) ->
  isStatic s = false /\ includes STATIC_PENTEST_STAGES (stage s) = false.
Proof.
  unfold customStages. intros H. apply List.filter_In in H as [Hin Hs].
  rewrite <- (existingStages_inv _ _ Hin). apply negb_true_iff in Hs.
  split; exact Hs.
Qed.

Lemma findStage_flat_map_absent (f : string -> option Stage) (L : list string) (n : string) :
  (forall m s, f m = Some s -> stage s = m) -> ~ In n L ->
  findStage n (flat_map (fun m => match f m with Some s => [s] | None => [] end) L) = None.
Proof.
  intros Hf. unfold findStage. induction L as [|a L IH]; intros Hn; [reflexivity|].
  cbn [flat_map]. destruct (f a) as [s|] eqn:Ha.
  - cbn [app List.find]. rewrite (Hf _ _ Ha).
    destruct (String.eqb a n) eqn:E.
    + apply String.eqb_eq in E. subst. exfalso. apply Hn. left. reflexivity.
    + apply IH. intros H. apply Hn. right. exact H.
  - cbn [app]. apply IH. intros H. apply Hn. right. exact H.
Qed.

Lemma findStage_flat_map (f : string -> option Stage) (L : list string) (n : string) :
  (forall m s, f m = Some s -> stage s = m) -> List.NoDup L -> In n L ->
  findStage n (flat_map (fun m => match f m with Some s => [s] | None => [] end) L) = f n.
Proof.
  intros Hf Hnd. induction Hnd as [|a L Ha Hnd IH]; intros Hn; [destruct Hn|].
  cbn [flat_map]. destruct (String.eqb a n) eqn:E.
  - apply String.eqb_eq in E. subst a.
    destruct (f n) as [s|] eqn:Hs.
    + unfold findStage. cbn [app List.find]. rewrite (Hf _ _ Hs), String.eqb_refl.
      reflexivity.
    + cbn [app]. apply findStage_flat_map_absent; assumption.
  - destruct Hn as [Hn|Hn]; [subst; rewrite String.eqb_refl in E; discriminate|].
    destruct (f a) as [s|] eqn:Hs.
    + unfold findStage in *. cbn [app List.find]. rewrite (Hf _ _ Hs), E. apply IH, Hn.
    + cbn [app]. apply IH, Hn.
Qed.

Lemma reconcile_parts (ps : list Stage) :
  existingStages (reconcileStages ps) = reconcileStages ps /\
  staticStagesPresent (reconcileStages ps) = reorderedStaticStages ps /\
  customStages (reconcileStages ps) = customStages ps.
Proof.
  assert (Hex : existingStages (reconcileStages ps) = reconcileStages ps).
  { apply existingStages_fixed. intros s Hs. unfold reconcileStages in Hs.
    apply in_app_or in Hs as [Hs|Hs].
    - destruct (reordered_static _ _ Hs) as [-> ->]. reflexivity.
    - destruct (custom_not_static _ _ Hs) as [-> ->]. reflexivity. }
  unfold staticStagesPresent, customStages at 1. rewrite Hex.
  unfold reconcileStages. rewrite !List.filter_app.
  rewrite (filter_all isStatic (reorderedStaticStages ps))
    by (intros x Hx; apply (reordered_static _ _ Hx)).
  rewrite (filter_none isStatic (customStages ps))
    by (intros x Hx; apply (custom_not_static _ _ Hx)).
  rewrite (filter_none (fun s => negb (isStatic s)) (reorderedStaticStages ps))
    by (intros x Hx; rewrite (proj1 (reordered_static _ _ Hx)); reflexivity).
  rewrite (filter_all (fun s => negb (isStatic s)) (customStages ps))
    by (intros x Hx; rewrite (proj1 (custom_not_static _ _ Hx)); reflexivity).
  rewrite app_nil_r. split; [reflexivity|split; reflexivity].
Qed.

Lemma reordered_reconcile (ps : list Stage) :
  reorderedStaticStages (reconcileStages ps) = reorderedStaticStages ps.
Proof.
  destruct (reconcile_parts ps) as [_ [Hst _]].
  unfold reorderedStaticStages at 1. rewrite Hst.
  unfold reorderedStaticStages at 2. apply flat_map_ext_in. intros n Hn.
  unfold reorderedStaticStages. rewrite findStage_flat_map; [reflexivity| |exact STATIC_nodup|exact Hn].
  intros m s Hs. unfold findStage in Hs. apply find_some in Hs as [_ He].
  apply String.eqb_eq. exact He.
Qed.

(** Reconciliation is idempotent: reconciling an already reconciled stage
    list (static stages in template order, then custom stages, each with
    its [isStatic] flag recomputed) gives the same list back. *)
Theorem reconcile_idempotent (ps : list Stage) :
  reconcileStages (reconcileStages ps) = reconcileStages ps.
Proof.
  unfold reconcileStages at 1. rewrite reordered_reconcile.
  destruct (reconcile_parts ps) as [_ [_ ->]]. reflexivity.
Qed.

Lemma someDiffers_refl (xs : list string) : someDiffers xs xs = false.
Proof. induction xs as [|x xs IH]; [reflexivity|]. simpl. rewrite String.eqb_refl. exact IH. Qed.

(** The corrective write echoes back as a project whose stages are the
    reconciled list; a pass of the effect on such a list never schedules
    another write, whatever the card state. *)
Theorem reconcile_echo_writes_nothing (st : CardState) (ps : list Stage) :
  snd (reconcileEffect st (Some (reconcileStages ps))) = [].
Proof.
  unfold reconcileEffect.
  destruct (match lastProcessedStagesRef st with
            | Some last => fingerprint_eqb last (stagesKey (Some (reconcileStages ps)))
            | None => false end); [reflexivity|].
  assert (Ho : orderChanged (reconcileStages ps) = false).
  { unfold orderChanged, staticStagesInOrder. rewrite reordered_reconcile.
    assert (Hp : staticStagesInProject (reconcileStages ps) = map stage (reorderedStaticStages ps)).
    { unfold staticStagesInProject, reconcileStages. rewrite List.filter_app.
      rewrite (filter_all _ (reorderedStaticStages ps))
        by (intros x Hx; apply (reordered_static _ _ Hx)).
      rewrite (filter_none _ (customStages ps))
        by (intros x Hx; apply (custom_not_static _ _ Hx)).
      rewrite app_nil_r. reflexivity. }
    rewrite Hp, Nat.eqb_refl, someDiffers_refl. reflexivity. }
  cbn zeta. rewrite Ho. reflexivity.
Qed.

(** ** Mounting and the first pass *)

(** On mount the ref is empty, so the first pass always runs: it records
    the fingerprint of the project's stages and shows their reconciliation
    (or the fresh template when the project has no stage list), replacing
    the list built by [initializePentestStages]. *)
Theorem mount_first_pass_view (ps : option (list Stage)) :
  fst (reconcileEffect (mountCard ps) ps) =
  mkCardState (Some (stagesKey ps))
    (match ps with Some l => reconcileStages l | None => initialStages end).
Proof.
  unfold reconcileEffect, mountCard. cbn [lastProcessedStagesRef pentestStages].
  destruct ps as [l|]; [|reflexivity]. cbn zeta.
  destruct (stages_differ (initializePentestStages (Some l)) (reconcileStages l)) eqn:Hd.
  - destruct (_ && _); reflexivity.
  - apply stages_differ_false in Hd. rewrite Hd. destruct (_ && _); reflexivity.
Qed.

(** ** [initializePentestStages] is idempotent *)

Lemma initialize_eq (ps : option (list Stage)) :
  let l := match ps with Some l => l | None => [] end in
  initializePentestStages ps =
    (map (fun n => match lastNamed n l with
                   | Some e => withStatic true e
                   | None => mkStage n false None true
                   end) STATIC_PENTEST_STAGES
     ++ List.filter (fun s => negb (includes STATIC_PENTEST_STAGES (stage s))) l)%list.
Proof.
  intros l. unfold initializePentestStages, l. f_equal; [|destruct ps; reflexivity].
  apply map_ext. intros n.
  destruct ps as [l'|]; [|reflexivity].
  destruct (0 <? length l')%nat eqn:Hlen.
  - rewrite fold_insert_lookup, lookup_empty. reflexivity.
  - apply Nat.ltb_ge in Hlen. destruct l'; [reflexivity | simpl in Hlen; lia].
Qed.

Lemma lastNamed_fold_skip (n : string) (l : list Stage) (acc : option Stage) :
  (forall s, In s l -> stage s <> n) ->
  fold_left (fun acc s => if String.eqb (stage s) n then Some s else acc) l acc = acc.
Proof.
  revert acc. induction l as [|a l IH]; intros acc H; [reflexivity|]. simpl.
  destruct (String.eqb (stage a) n) eqn:E.
  - apply String.eqb_eq in E. exfalso. exact (H a (or_introl eq_refl) E).
  - apply IH. intros s Hs. apply H. right. exact Hs.
Qed.

Lemma lastNamed_fold_map (g : string -> Stage) (L : list string) (n : string)
    (acc : option Stage) :
  (forall m, stage (g m) = m) -> List.NoDup L -> In n L ->
  fold_left (fun acc s => if String.eqb (stage s) n then Some s else acc)
    (map g L) acc = Some (g n).
Proof.
  intros Hg Hnd. revert acc. induction Hnd as [|a L Ha Hnd IH]; intros acc Hn;
    [destruct Hn|].
  cbn [map fold_left]. rewrite Hg.
  destruct (String.eqb a n) eqn:E.
  - apply String.eqb_eq in E. subst a. apply lastNamed_fold_skip.
    intros s Hs Heq. apply in_map_iff in Hs as [m [<- Hm]]. rewrite Hg in Heq.
    subst. exact (Ha Hm).
  - destruct Hn as [->|Hn]; [rewrite String.eqb_refl in E; discriminate|].
    apply IH. exact Hn.
Qed.

(** Feeding the list built by [initializePentestStages] back to it gives
    the same list: the template stages are already complete, in order and
    static, and the custom stages are kept as they are. *)
Theorem initialize_idempotent (ps : option (list Stage)) :
  initializePentestStages (Some (initializePentestStages ps)) = initializePentestStages ps.
Proof.
  rewrite (initialize_eq (Some (initializePentestStages ps))). cbn zeta.
  rewrite (initialize_eq ps). cbn zeta.
  set (l := match ps with Some l => l | None => [] end).
  set (g := fun n => match lastNamed n l with
                     | Some e => withStatic true e
                     | None => mkStage n false None true
                     end).
  set (C := List.filter (fun s => negb (includes STATIC_PENTEST_STAGES (stage s))) l).
  assert (Hg : forall m, stage (g m) = m).
  { intros m. unfold g. destruct (lastNamed m l) as [e|] eqn:He; [|reflexivity].
    apply lastNamed_stage in He. exact He. }
  assert (HC : forall s, In s C -> includes STATIC_PENTEST_STAGES (stage s) = false).
  { intros s Hs. apply List.filter_In in Hs as [_ Hs]. apply negb_true_iff. exact Hs. }
  f_equal.
  - apply map_ext_in. intros n Hn.
    unfold lastNamed. rewrite fold_left_app.
    rewrite (lastNamed_fold_map g _ n None Hg STATIC_nodup Hn).
    rewrite lastNamed_fold_skip.
    + unfold g. destruct (lastNamed n l); [destruct s; reflexivity|reflexivity].
    + intros s Hs Heq. apply HC in Hs. rewrite Heq in Hs.
      apply includes_true_iff in Hn. rewrite Hn in Hs. discriminate.
  - rewrite List.filter_app.
    rewrite (filter_none _ (map g STATIC_PENTEST_STAGES)).
    + cbn [app]. apply filter_all. intros s Hs. rewrite (HC s Hs). reflexivity.
    + intros s Hs. apply in_map_iff in Hs as [m [<- Hm]]. rewrite Hg.
      apply includes_true_iff in Hm. rewrite Hm. reflexivity.
Qed.

(** ** Business days remaining *)

Lemma business_days_nonneg (sd ed : Date) : 0 <= calculateBusinessDays (Some sd) (Some ed).
Proof. unfold calculateBusinessDays. destruct (_ <? _); lia. Qed.

Lemma business_days_empty (sd ed : Date) :
  day ed < day sd -> calculateBusinessDays (Some sd) (Some ed) = 0.
Proof.
  intros H. unfold calculateBusinessDays, setHours0; simpl.
  replace (day ed <? day sd) with true by (symmetry; apply Z.ltb_lt; exact H).
  reflexivity.
Qed.

(** The remaining business days are hidden once the engagement is
    completed; otherwise they are never negative and never grow as the
    current day moves forward. *)
Theorem business_days_remaining_shrinks (now now' ed : Date) :
  day now <= day now' ->
  businessDaysRemaining now (Some ed) true = None /\
  exists a b, businessDaysRemaining now (Some ed) false = Some a /\
              businessDaysRemaining now' (Some ed) false = Some b /\ 0 <= b <= a.
Proof.
  intros Hle. split; [reflexivity|]. unfold businessDaysRemaining.
  do 2 eexists. split; [reflexivity|]. split; [reflexivity|].
  destruct now as [n tn], now' as [n' tn'], ed as [e te]; simpl in Hle.
  destruct (Z_lt_le_dec e n') as [Hlt|Hge].
  - rewrite (business_days_empty (mkDate n' tn') (mkDate e te)) by exact Hlt.
    pose proof (business_days_nonneg (mkDate n tn) (mkDate e te)). lia.
  - rewrite (business_days_split_gen n (n' - 1) e tn te 0 tn') by lia.
    replace (n' - 1 + 1) with n' by lia.
    pose proof (business_days_nonneg (mkDate n tn) (mkDate (n' - 1) 0)).
    pose proof (business_days_nonneg (mkDate n' tn') (mkDate e te)). lia.
Qed.

Lemma business_days_remaining_shrinks_witness :
  day (mkDate 19723 0) <= day (mkDate 19726 0) /\
  businessDaysRemaining (mkDate 19723 0) (Some (mkDate 19730 0)) true = None.
Proof.
  split; [simpl; lia|].
  exact (proj1 (business_days_remaining_shrinks (mkDate 19723 0) (mkDate 19726 0)
                  (mkDate 19730 0) ltac:(simpl; lia))).
Defined.

(** ** Completing: what the card shows afterwards *)

(** Once the completion is persisted ([completed_date] is the completion
    instant), the card shows [calculateBusinessDays(start, completed) -
    leave_days] again, while the persisted [business_days_worked] is that
    number clamped at 0: the two differ exactly when the leave days exceed
    the business days, and the shown value is then negative.  Without a
    start date, 0 is persisted and shown. *)
Theorem completion_display_vs_persisted
    (now sd : Date) (nowIso : string) (leaveDays b : Z) :
  handleCompleteProject false now nowIso (Some sd) leaveDays =
    [PComplete "past" nowIso leaveDays
       (Z.max 0 (displayedBusinessDaysWorked (Some sd) (Some now) leaveDays b))] /\
  (displayedBusinessDaysWorked (Some sd) (Some now) leaveDays b < 0 <->
   calculateBusinessDays (Some sd) (Some now) < leaveDays) /\
  handleCompleteProject false now nowIso None leaveDays =
    [PComplete "past" nowIso leaveDays 0] /\
  displayedBusinessDaysWorked None (Some now) leaveDays 0 = 0.
Proof.
  unfold handleCompleteProject, displayedBusinessDaysWorked.
  split; [reflexivity|]. split; [lia|]. split; reflexivity.
Qed.

(** ** Indices past the end of the list *)



(** ** Toggling a stage *)

Lemma map_insert_same {A B} (f : A -> B) (l : list A) (i : nat) (x y : A) :
  nth_error l i = Some y -> f x = f y -> map f (<[i := x]> l) = map f l.
Proof.
  revert i. induction l as [|a l IH]; intros [|i] Hy Hf; simpl in *; try discriminate.
  - injection Hy as ->. rewrite Hf. reflexivity.
  - f_equal. apply IH; assumption.
Qed.

Lemma nth_error_insert_eq {A} (l : list A) (i : nat) (x : A) :
  (i < length l)%nat -> nth_error (<[i := x]> l) i = Some x.
Proof.
  revert i. induction l as [|a l IH]; intros [|i] H; simpl in *; try lia; [reflexivity|].
  apply IH. lia.
Qed.

Lemma nth_error_insert_ne {A} (l : list A) (i j : nat) (x : A) :
  i <> j -> nth_error (<[i := x]> l) j = nth_error l j.
Proof.
  revert i j. induction l as [|a l IH]; intros [|i] [|j] H; simpl; try reflexivity;
    [lia|]. apply IH. lia.
Qed.

Lemma insert_insert_same {A} (l : list A) (i : nat) (x y : A) :
  <[i := x]> (<[i := y]> l) = <[i := x]> l.
Proof.
  revert i. induction l as [|a l IH]; intros [|i]; simpl; try reflexivity.
  rewrite IH. reflexivity.
Qed.

Lemma insert_nth_self {A} (l : list A) (i : nat) (x : A) :
  nth_error l i = Some x -> <[i := x]> l = l.
Proof.
  revert i. induction l as [|a l IH]; intros [|i] H; simpl in *; try discriminate.
  - injection H as ->. reflexivity.
  - rewrite IH by exact H. reflexivity.
Qed.

(** Toggling a stage flips the [done] flag of that stage only: the names
    and [isStatic] flags of the list, and every other stage, are kept, and
    the list is persisted once with its weighted progress. *)
Theorem toggle_stage_frame (now : string) (stages : list Stage) (index : nat) (s : Stage) :
  nth_error stages index = Some s ->
  exists updated,
    handleToggleStage false now stages index =
      Ok updated [PStagesProgress updated (calculateWeightedProgress updated)] [] /\
    names updated = names stages /\
    map isStatic updated = map isStatic stages /\
    option_map done (nth_error updated index) = Some (negb (done s)) /\
    (forall j, j <> index -> nth_error updated j = nth_error stages j).
Proof.
  intros Hs. unfold handleToggleStage. rewrite Hs. eexists. split; [reflexivity|].
  assert (Hlt : (index < length stages)%nat)
    by (apply nth_error_Some; rewrite Hs; discriminate).
  split; [unfold names; apply (map_insert_same _ _ _ _ s Hs); reflexivity|].
  split; [apply (map_insert_same _ _ _ _ s Hs); reflexivity|].
  split; [rewrite nth_error_insert_eq by exact Hlt; reflexivity|].
  intros j Hj. apply nth_error_insert_ne. intros E. apply Hj. symmetry. exact E.
Qed.

Lemma toggle_stage_frame_witness :
  nth_error (template_with []) 0 = Some (mkStage "Ticket Assigned" false None true) /\
  exists updated,
    handleToggleStage false "2024-01-01T09:00:00.000Z" (template_with []) 0 =
      Ok updated [PStagesProgress updated (calculateWeightedProgress updated)] [] /\
    names updated = names (template_with []).
Proof.
  assert (H : nth_error (template_with []) 0 = Some (mkStage "Ticket Assigned" false None true))
    by reflexivity.
  split; [exact H|].
  destruct (toggle_stage_frame "2024-01-01T09:00:00.000Z" _ _ _ H)
    as [u [Hu [Hn _]]].
  exists u. split; assumption.
Defined.

(** Marking an undone stage without a date as done and then undone again,
    at any two instants, gives back the original list, persisted as is. *)
Theorem toggle_stage_twice (now now' : string) (stages : list Stage) (index : nat)
    (s : Stage) :
  nth_error stages index = Some s -> done s = false -> date s = None ->
  exists updated writes,
    handleToggleStage false now stages index = Ok updated writes [] /\
    handleToggleStage false now' updated index =
      Ok stages [PStagesProgress stages (calculateWeightedProgress stages)] [].
Proof.
  intros Hs Hd Ht. unfold handleToggleStage at 1. rewrite Hs, Hd. cbn [negb].
  do 2 eexists. split; [reflexivity|].
  assert (Hlt : (index < length stages)%nat)
    by (apply nth_error_Some; rewrite Hs; discriminate).
  unfold handleToggleStage. rewrite nth_error_insert_eq by exact Hlt. cbn [negb done stage isStatic].
  rewrite insert_insert_same.
  replace (mkStage (stage s) false None (isStatic s)) with s
    by (destruct s; simpl in *; subst; reflexivity).
  rewrite insert_nth_self by exact Hs. reflexivity.
Qed.

Lemma toggle_stage_twice_witness :
  (nth_error (template_with []) 1 = Some (mkStage "Kickoff" false None true) /\
   done (mkStage "Kickoff" false None true) = false /\
   date (mkStage "Kickoff" false None true) = None) /\
  exists updated writes,
    handleToggleStage false "2024-01-01T09:00:00.000Z" (template_with []) 1 =
      Ok updated writes [] /\
    handleToggleStage false "2024-01-02T09:00:00.000Z" updated 1 =
      Ok (template_with [])
         [PStagesProgress (template_with []) (calculateWeightedProgress (template_with []))] [].
Proof.
  split; [split; [reflexivity|split; reflexivity]|].
  apply toggle_stage_twice with (s := mkStage "Kickoff" false None true); reflexivity.
Defined.

(** ** Adding a stage or a test *)

Lemma ltrim_spaces (s : string) :
  forallb is_js_space (list_ascii_of_string s) = true -> ltrim s = EmptyString.
Proof.
  induction s as [|c s IH]; simpl; [reflexivity|].
  intros H. apply andb_prop in H as [Hc Hs]. rewrite Hc. apply IH, Hs.
Qed.

Lemma ltrim_shape (s : string) :
  ltrim s = EmptyString \/
  exists c t, ltrim s = String c t /\ is_js_space c = false.
Proof.
  induction s as [|c s IH]; simpl; [left; reflexivity|].
  destruct (is_js_space c) eqn:Hc; [exact IH|]. right. exists c, s. split; [reflexivity|exact Hc].
Qed.

Lemma rtrim_idem (s : string) : rtrim (rtrim s) = rtrim s.
Proof.
  induction s as [|c s IH]; [reflexivity|]. simpl.
  destruct (rtrim s) as [|c' r] eqn:Hr.
  - destruct (is_js_space c) eqn:Hc; simpl; [reflexivity|]. rewrite Hc. reflexivity.
  - change (rtrim (String c (String c' r))) with
      (match rtrim (String c' r) with
       | EmptyString => if is_js_space c then EmptyString else String c EmptyString
       | _ => String c (rtrim (String c' r))
       end).
    rewrite IH. reflexivity.
Qed.

Lemma rtrim_head (c : Ascii.ascii) (t : string) :
  is_js_space c = false -> exists t', rtrim (String c t) = String c t'.
Proof.
  intros Hc. simpl. destruct (rtrim t) as [|c' r].
  - rewrite Hc. exists EmptyString. reflexivity.
  - exists (String c' r). reflexivity.
Qed.

Lemma trim_idem (s : string) : trim (trim s) = trim s.
Proof.
  unfold trim. destruct (ltrim_shape s) as [->|[c [t [-> Hc]]]]; [reflexivity|].
  destruct (rtrim_head c t Hc) as [t' Ht]. rewrite Ht. simpl (ltrim (String c t')).
  rewrite Hc, <- Ht. apply rtrim_idem.
Qed.

(** An empty or white-space-only input adds nothing, writes nothing and
    leaves the input as typed, for stages and tests alike. *)
Theorem add_blank_is_noop (newText : string) (stages : list Stage) (tests : list TestItem.t) :
  forallb is_js_space (list_ascii_of_string newText) = true ->
  handleAddStage false newText stages = (newText, Ok stages [] []) /\
  handleAddTest false newText tests = (newText, Ok tests [] []).
Proof.
  intros H. unfold handleAddStage, handleAddTest, trim. rewrite (ltrim_spaces _ H).
  split; reflexivity.
Qed.

Lemma add_blank_is_noop_witness :
  forallb is_js_space (list_ascii_of_string "   ") = true /\
  handleAddStage false "   " (template_with []) = ("   ", Ok (template_with []) [] []).
Proof.
  split; [reflexivity|].
  exact (proj1 (add_blank_is_noop "   " (template_with []) [] eq_refl)).
Defined.

Lemma existingStages_app (l1 l2 : list Stage) :
  existingStages (l1 ++ l2) = (existingStages l1 ++ existingStages l2)%list.
Proof. unfold existingStages. apply map_app. Qed.

Lemma find_app {A} (p : A -> bool) (l1 l2 : list A) :
  List.find p (l1 ++ l2) =
  match List.find p l1 with Some x => Some x | None => List.find p l2 end.
Proof. induction l1 as [|a l1 IH]; simpl; [reflexivity|]. destruct (p a); auto. Qed.

(** A stage added under a new name, not a template name, is persisted with
    its trimmed name (trimming it again changes nothing), the input is
    cleared, and once the write echoes back the reconciled view is the
    previous one with the new custom stage at its end. *)
Theorem add_custom_stage_shown_last (newStage : string) (stages : list Stage) :
  trim newStage <> "" ->
  includes STATIC_PENTEST_STAGES (trim newStage) = false ->
  let added := mkStage (trim newStage) false None false in
  let updated := (stages ++ [added])%list in
  handleAddStage false newStage stages = ("", Ok updated [PStages updated] []) /\
  trim (stage added) = stage added /\
  reconcileStages updated = (reconcileStages stages ++ [added])%list.
Proof.
  intros Hne Hst added updated.
  split; [unfold handleAddStage; apply String.eqb_neq in Hne; rewrite Hne; reflexivity|].
  split; [apply trim_idem|].
  assert (Hex : existingStages updated = (existingStages stages ++ [added])%list).
  { unfold updated. rewrite existingStages_app. unfold existingStages at 2.
    cbn [map stage added]. rewrite Hst. reflexivity. }
  unfold reconcileStages.
  assert (Hp : staticStagesPresent updated = staticStagesPresent stages).
  { unfold staticStagesPresent. rewrite Hex, List.filter_app. cbn. apply app_nil_r. }
  assert (Hc : customStages updated = (customStages stages ++ [added])%list).
  { unfold customStages. rewrite Hex, List.filter_app. reflexivity. }
  unfold reorderedStaticStages. rewrite Hp, Hc, app_assoc. reflexivity.
Qed.

Lemma add_custom_stage_shown_last_witness :
  (trim " Scope review " <> "" /\
   includes STATIC_PENTEST_STAGES (trim " Scope review ") = false) /\
  reconcileStages (template_with [] ++ [mkStage "Scope review" false None false])%list =
  (reconcileStages (template_with []) ++ [mkStage "Scope review" false None false])%list.
Proof.
  split; [split; [discriminate|reflexivity]|].
  exact (proj2 (proj2 (add_custom_stage_shown_last " Scope review " (template_with [])
           ltac:(discriminate) eq_refl))).
Defined.

(** A stage added under the name of a template stage already in the list
    is persisted (as a custom stage) and the input is cleared, but once the
    write echoes back the reconciled view is unchanged: the duplicate is
    hidden, since only the first stage of a template name is shown. *)
Theorem add_template_name_hidden (newStage : string) (stages : list Stage) (x : Stage) :
  In x stages -> stage x = trim newStage ->
  includes STATIC_PENTEST_STAGES (trim newStage) = true ->
  let updated := (stages ++ [mkStage (trim newStage) false None false])%list in
  handleAddStage false newStage stages = ("", Ok updated [PStages updated] []) /\
  reconcileStages updated = reconcileStages stages.
Proof.
  intros Hx Hn Hst updated.
  assert (Hne : trim newStage <> "").
  { intros E. rewrite E in Hst. discriminate. }
  split; [unfold handleAddStage; apply String.eqb_neq in Hne; rewrite Hne; reflexivity|].
  set (w := mkStage (trim newStage) false None true).
  assert (Hex : existingStages updated = (existingStages stages ++ [w])%list).
  { unfold updated. rewrite existingStages_app. unfold existingStages at 2.
    cbn [map stage]. rewrite Hst. reflexivity. }
  assert (Hp : staticStagesPresent updated = (staticStagesPresent stages ++ [w])%list).
  { unfold staticStagesPresent. rewrite Hex, List.filter_app. reflexivity. }
  assert (Hc : customStages updated = customStages stages).
  { unfold customStages. rewrite Hex, List.filter_app. apply app_nil_r. }
  unfold reconcileStages. rewrite Hc. f_equal.
  unfold reorderedStaticStages. rewrite Hp. apply flat_map_ext_in. intros n _.
  unfold findStage. rewrite find_app.
  destruct (List.find (fun s => String.eqb (stage s) n) (staticStagesPresent stages))
    as [y|] eqn:Hf; [reflexivity|].
  simpl. destruct (String.eqb (trim newStage) n) eqn:E; [|reflexivity].
  exfalso. apply String.eqb_eq in E.
  assert (Hin : In (withStatic true x) (staticStagesPresent stages)).
  { unfold staticStagesPresent. apply List.filter_In. split; [|reflexivity].
    unfold existingStages. replace (withStatic true x)
      with (withStatic (includes STATIC_PENTEST_STAGES (stage x)) x)
      by (rewrite Hn, Hst; reflexivity).
    exact (in_map (fun s => withStatic (includes STATIC_PENTEST_STAGES (stage s)) s) _ _ Hx). }
  pose proof (find_none _ _ Hf _ Hin) as Hfx. cbn in Hfx.
  rewrite Hn, E, String.eqb_refl in Hfx. discriminate.
Qed.

Lemma add_template_name_hidden_witness :
  (In (mkStage "Kickoff" false None true) (template_with []) /\
   stage (mkStage "Kickoff" false None true) = trim "Kickoff" /\
   includes STATIC_PENTEST_STAGES (trim "Kickoff") = true) /\
  reconcileStages (template_with [] ++ [mkStage "Kickoff" false None false])%list =
  reconcileStages (template_with []).
Proof.
  assert (Hin : In (mkStage "Kickoff" false None true) (template_with []))
    by (simpl; right; left; reflexivity).
  split; [split; [exact Hin|split; reflexivity]|].
  exact (proj2 (add_template_name_hidden "Kickoff" (template_with []) _ Hin eq_refl eq_refl)).
Defined.

(** ** Calendar periodicity *)

(** Moving both ends of an interval by the same number of whole weeks keeps
    its count of business days. *)
Theorem business_days_week_shift (s e t1 t2 q : Z) :
  calculateBusinessDays (Some (mkDate (s + 7 * q) t1)) (Some (mkDate (e + 7 * q) t2)) =
  calculateBusinessDays (Some (mkDate s t1)) (Some (mkDate e t2)).
Proof.
  unfold calculateBusinessDays, setHours0, eachDayOfInterval; simpl.
  replace (e + 7 * q <? s + 7 * q) with (e <? s)
    by (destruct (e <? s) eqn:H; symmetry;
        [apply Z.ltb_lt in H; apply Z.ltb_lt | apply Z.ltb_ge in H; apply Z.ltb_ge]; lia).
  destruct (e <? s); [reflexivity|].
  replace (e + 7 * q - (s + 7 * q) + 1) with (e - s + 1) by lia.
  rewrite business_count_shift. reflexivity.
Qed.

(** ** What the reconciliation ref ignores *)

(** The ref only records the names and [done] flags of the persisted
    stages: once a list has been processed, a later list with the same names
    and flags is skipped, even when dates or [isStatic] flags differ, so
    such a change never reaches the view. *)
Theorem reconcile_ignores_dates (st : CardState) (ps ps' : list Stage) :
  map (fun s => (stage s, done s)) ps' = map (fun s => (stage s, done s)) ps ->
  let st' := fst (reconcileEffect st (Some ps)) in
  reconcileEffect st' (Some ps') = (st', []).
Proof.
  intros Heq st'. pose proof (reconcileEffect_ref st (Some ps)) as Hr.
  unfold skipped in Hr. fold st' in Hr.
  unfold reconcileEffect at 1. rewrite Hr.
  replace (stagesKey (Some ps')) with (stagesKey (Some ps))
    by (unfold stagesKey; simpl; rewrite Heq; reflexivity).
  rewrite fingerprint_eqb_refl. reflexivity.
Qed.

Lemma reconcile_ignores_dates_witness :
  map (fun s => (stage s, done s))
      (mkStage "Ticket Assigned" false (Some "2024-01-01T09:00:00.000Z") true
       :: skipn 1 (template_with [])) =
  map (fun s => (stage s, done s)) (template_with []) /\
  reconcileEffect (fst (reconcileEffect (mountCard None) (Some (template_with []))))
    (Some (mkStage "Ticket Assigned" false (Some "2024-01-01T09:00:00.000Z") true
           :: skipn 1 (template_with []))) =
  (fst (reconcileEffect (mountCard None) (Some (template_with []))), []).
Proof.
  split; [reflexivity|].
  apply (reconcile_ignores_dates (mountCard None) (template_with [])). reflexivity.
Defined.

(** ** Progress at the extremes *)

Lemma groupPct_none (t : nat) (w : Z) : (groupPct 0 t w == 0)%Q.
Proof.
  unfold groupPct. destruct (0 <? t)%nat; [|reflexivity].
  unfold Qdiv. rewrite Qmult_0_l, Qmult_0_l. reflexivity.
Qed.

Lemma groupPct_all (t : nat) (w : Z) : (0 < t)%nat -> (groupPct t t w == inject_Z w)%Q.
Proof.
  intros Ht. unfold groupPct. apply Nat.ltb_lt in Ht. rewrite Ht.
  unfold Qdiv. rewrite Qmult_inv_r; [apply Qmult_1_l|].
  unfold natQ. change 0%Q with (inject_Z 0). rewrite inject_Z_injective.
  apply Nat.ltb_lt in Ht. lia.
Qed.

Lemma groupCompleted_none (g : list string) (l : list Stage) :
  (forall s, In s l -> done s = false) -> groupCompleted g l = 0%nat.
Proof.
  intros H. unfold groupCompleted. rewrite filter_none; [reflexivity|].
  intros s Hs. rewrite (H s Hs). apply andb_false_r.
Qed.

Lemma groupCompleted_all (g : list string) (l : list Stage) :
  (forall s, In s l -> done s = true) -> groupCompleted g l = groupTotal g l.
Proof.
  intros H. unfold groupCompleted, groupTotal. f_equal. apply List.filter_ext_in.
  intros s Hs. rewrite (H s Hs). apply andb_true_r.
Qed.

(** With no stage done the weighted progress is 0; with every stage done it
    is 100, provided each of the three groups has at least one stage (an
    empty group gives away its weight). *)
Theorem weighted_progress_extremes (stages : list Stage) :
  ((forall s, In s stages -> done s = false) -> calculateWeightedProgress stages = 0) /\
  ((forall s, In s stages -> done s = true) ->
   (0 < groupTotal PREPARATION_STAGES stages)%nat ->
   (0 < groupTotal MAIN_TESTING_STAGES stages)%nat ->
   (0 < groupTotal FINAL_STAGES stages)%nat ->
   calculateWeightedProgress stages = 100).
Proof.
  split.
  - intros H. unfold calculateWeightedProgress, Math_round.
    rewrite !(groupCompleted_none _ _ H).
    rewrite (Qfloor_comp _ (0 + (1 # 2))); [reflexivity|].
    rewrite !groupPct_none. reflexivity.
  - intros H Hp Hm Hf. unfold calculateWeightedProgress, Math_round.
    rewrite !(groupCompleted_all _ _ H).
    rewrite (Qfloor_comp _ (100 + (1 # 2))); [reflexivity|].
    rewrite (groupPct_all _ 10 Hp), (groupPct_all _ 80 Hm), (groupPct_all _ 10 Hf).
    reflexivity.
Qed.

Lemma weighted_progress_extremes_witness :
  calculateWeightedProgress (template_with []) = 0 /\
  calculateWeightedProgress (template_with STATIC_PENTEST_STAGES) = 100.
Proof.
  split.
  - apply (proj1 (weighted_progress_extremes (template_with []))).
    intros s Hs. unfold template_with in Hs. apply in_map_iff in Hs as [n [<- Hn]].
    simpl in Hn. repeat (destruct Hn as [<-|Hn]; [reflexivity|]). destruct Hn.
  - apply (proj2 (weighted_progress_extremes (template_with STATIC_PENTEST_STAGES)));
      [|vm_compute; lia..].
    intros s Hs. unfold template_with in Hs. apply in_map_iff in Hs as [n [<- Hn]].
    exact (proj2 (includes_true_iff _ _) Hn).
Defined.

(** With no test done the test progress is 0; with every test of a
    non-empty checklist done it is 100. *)
Theorem tests_progress_extremes (tests : list TestItem.t) :
  ((forall t, In t tests -> TestItem.done t = false) -> (testsProgress tests == 0)%Q) /\
  ((forall t, In t tests -> TestItem.done t = true) -> tests <> [] ->
   (testsProgress tests == 100)%Q).
Proof.
  split.
  - intros H. unfold testsProgress. rewrite filter_none by exact H. simpl.
    destruct (0 <? length tests)%nat; [|reflexivity].
    unfold Qdiv. rewrite Qmult_0_l, Qmult_0_l. reflexivity.
  - intros H Hne. unfold testsProgress. rewrite filter_all by exact H.
    destruct tests as [|t r]; [contradiction|]. cbn [length Nat.ltb Nat.leb].
    unfold Qdiv. rewrite Qmult_inv_r; [apply Qmult_1_l|].
    unfold natQ. change 0%Q with (inject_Z 0). rewrite inject_Z_injective. lia.
Qed.

Lemma tests_progress_extremes_witness :
  (testsProgress [TestItem.mk "SQL injection" true None] == 100)%Q.
Proof.
  apply (proj2 (tests_progress_extremes _)); [|discriminate].
  intros t [<-|[]]. reflexivity.
Defined.

(** ** Reconciliation only reorders *)

Lemma Permutation_filter_split {A} (f : A -> bool) (l : list A) :
  Permutation l (List.filter f l ++ List.filter (fun x => negb (f x)) l).
Proof.
  induction l as [|a l IH]; simpl; [constructor|].
  destruct (f a); simpl.
  - constructor. exact IH.
  - apply Permutation_cons_app. exact IH.
Qed.

Lemma NoDup_map_same {A B} (f : A -> B) (l : list A) (x y : A) :
  List.NoDup (map f l) -> In x l -> In y l -> f x = f y -> x = y.
Proof.
  induction l as [|a l IH]; intros Hnd Hx Hy He; [destruct Hx|].
  simpl in Hnd. inversion Hnd as [|b m Hnot Hnd' Heq]; subst.
  destruct Hx as [<-|Hx], Hy as [<-|Hy]; [reflexivity| | |].
  - exfalso. apply Hnot. rewrite He. apply in_map. exact Hy.
  - exfalso. apply Hnot. rewrite <- He. apply in_map. exact Hx.
  - apply IH; assumption.
Qed.

(** When no template name occurs twice among the persisted stages, the
    reconciled view holds exactly the persisted stages (with [isStatic]
    recomputed from the name), in another order: nothing is dropped and
    nothing is added. *)
Theorem reconcile_is_permutation (ps : list Stage) :
  List.NoDup (staticStagesInProject ps) ->
  Permutation (reconcileStages ps) (existingStages ps).
Proof.
  intros Hnd.
  assert (HP : List.NoDup (map stage (staticStagesPresent ps))).
  { rewrite staticStagesPresent_eq, map_map. exact Hnd. }
  assert (HR : List.NoDup (map stage (reorderedStaticStages ps))).
  { change (List.NoDup (staticStagesInOrder ps)).
    rewrite staticStagesInOrder_eq by exact Hnd.
    apply List.NoDup_filter. exact STATIC_nodup. }
  eapply perm_trans; [|apply Permutation_sym, (Permutation_filter_split isStatic)].
  unfold reconcileStages. apply Permutation_app_tail.
  apply Stdlib.Sorting.Permutation.NoDup_Permutation.
  - exact (NoDup_map_inv _ _ HR).
  - exact (NoDup_map_inv _ _ HP).
  - intros x. split; [apply reordered_In|]. intros Hx.
    assert (Hst : In (stage x) STATIC_PENTEST_STAGES).
    { unfold staticStagesPresent in Hx. apply List.filter_In in Hx as [Hin Hs].
      apply includes_true_iff. rewrite <- (existingStages_inv _ _ Hin). exact Hs. }
    unfold reorderedStaticStages. apply in_flat_map. exists (stage x). split; [exact Hst|].
    destruct (findStage (stage x) (staticStagesPresent ps)) as [y|] eqn:Hf.
    + apply find_some in Hf as [Hy Hn]. apply String.eqb_eq in Hn.
      left. apply (NoDup_map_same stage _ _ _ HP Hy Hx Hn).
    + exfalso. pose proof (find_none _ _ Hf x Hx) as H. simpl in H.
      rewrite String.eqb_refl in H. discriminate.
Qed.

Lemma reconcile_is_permutation_witness :
  List.NoDup (staticStagesInProject reorder_example) /\
  Permutation (reconcileStages reorder_example) (existingStages reorder_example).
Proof.
  assert (H : List.NoDup (staticStagesInProject reorder_example)).
  { vm_compute. repeat constructor; simpl; intuition discriminate. }
  split; [exact H|]. exact (reconcile_is_permutation _ H).
Defined.

(** ** Duplicated template names *)

Lemma names_flat_map_named (f : string -> option Stage) (L : list string) :
  (forall m s, f m = Some s -> stage s = m) ->
  map stage (flat_map (fun m => match f m with Some s => [s] | None => [] end) L) =
  List.filter (fun m => match f m with Some _ => true | None => false end) L.
Proof.
  intros Hf. induction L as [|a L IH]; [reflexivity|]. cbn [flat_map List.filter].
  destruct (f a) as [s|] eqn:Ha; [|exact IH].
  cbn [app map]. rewrite IH, (Hf _ _ Ha). reflexivity.
Qed.

Lemma staticStagesInOrder_nodup (ps : list Stage) : List.NoDup (staticStagesInOrder ps).
Proof.
  unfold staticStagesInOrder, reorderedStaticStages.
  rewrite names_flat_map_named.
  - apply List.NoDup_filter. exact STATIC_nodup.
  - intros m s Hs. unfold findStage in Hs. apply find_some in Hs as [_ He].
    apply String.eqb_eq. exact He.
Qed.

Lemma staticStagesInOrder_incl (ps : list Stage) :
  incl (staticStagesInOrder ps) (staticStagesInProject ps).
Proof.
  intros x Hx. unfold staticStagesInOrder in Hx. apply in_map_iff in Hx as [s [<- Hs]].
  apply reordered_In in Hs. unfold staticStagesPresent in Hs.
  apply List.filter_In in Hs as [Hin Hst].
  pose proof (existingStages_inv _ _ Hin) as Hinc.
  unfold existingStages in Hin. apply in_map_iff in Hin as [s0 [<- Hs0]].
  cbn [stage isStatic withStatic] in *.
  unfold staticStagesInProject. apply (in_map stage). apply List.filter_In.
  split; [exact Hs0|]. exact Hst.
Qed.

(** When a template name occurs twice in the persisted stages, the effect
    never schedules a corrective write: the duplicate stays persisted, and
    only its first occurrence is shown. *)
Theorem duplicates_never_corrected (st : CardState) (ps : list Stage) :
  ~ List.NoDup (staticStagesInProject ps) ->
  snd (reconcileEffect st (Some ps)) = [].
Proof.
  intros Hdup. unfold reconcileEffect.
  destruct (match lastProcessedStagesRef st with
            | Some last => fingerprint_eqb last (stagesKey (Some ps))
            | None => false end); [reflexivity|].
  cbn zeta.
  destruct ((length (staticStagesInProject ps) =? length (staticStagesInOrder ps))%nat)
    eqn:Hl; [|rewrite !andb_false_r; reflexivity].
  exfalso. apply Hdup. apply Nat.eqb_eq in Hl.
  apply (NoDup_incl_NoDup (l := staticStagesInOrder ps));
    [apply staticStagesInOrder_nodup | lia | apply staticStagesInOrder_incl].
Qed.

Lemma duplicates_never_corrected_witness :
  ~ List.NoDup (staticStagesInProject
                  [mkStage "Kickoff" true None true; mkStage "Kickoff" false None true]) /\
  snd (reconcileEffect (mountCard None)
         (Some [mkStage "Kickoff" true None true; mkStage "Kickoff" false None true])) = [].
Proof.
  assert (H : ~ List.NoDup (staticStagesInProject
                  [mkStage "Kickoff" true None true; mkStage "Kickoff" false None true])).
  { vm_compute. intros Hn. inversion Hn as [|x l Hx _]. apply Hx. left. reflexivity. }
  split; [exact H|]. exact (duplicates_never_corrected _ _ H).
Defined.

(** ** Deleting a custom stage from the reconciled view *)

Lemma removeIndex_incl {A} (l : list A) (i : nat) (x : A) :
  In x (removeIndex l i) -> In x l.
Proof.
  revert i. induction l as [|a l IH]; intros [|i] H; simpl in *; auto.
  destruct H as [H|H]; [left; exact H|right; exact (IH i H)].
Qed.

Lemma removeIndex_app_r {A} (l1 l2 : list A) (i : nat) :
  (length l1 <= i)%nat ->
  removeIndex (l1 ++ l2) i = (l1 ++ removeIndex l2 (i - length l1))%list.
Proof.
  revert i. induction l1 as [|a l1 IH]; intros i H; simpl.
  - rewrite Nat.sub_0_r. reflexivity.
  - destruct i as [|i]; [simpl in H; lia|]. simpl in H. rewrite IH by lia. reflexivity.
Qed.

Lemma reconcile_reordered_customs (ps : list Stage) (C : list Stage) :
  (forall s, In s C -> isStatic s = false /\ includes STATIC_PENTEST_STAGES (stage s) = false) ->
  reconcileStages (reorderedStaticStages ps ++ C) = (reorderedStaticStages ps ++ C)%list.
Proof.
  intros HC.
  assert (Hex : existingStages (reorderedStaticStages ps ++ C) = (reorderedStaticStages ps ++ C)%list).
  { apply existingStages_fixed. intros s Hs. apply in_app_or in Hs as [Hs|Hs].
    - destruct (reordered_static _ _ Hs) as [-> ->]. reflexivity.
    - destruct (HC s Hs) as [-> ->]. reflexivity. }
  unfold reconcileStages, customStages. rewrite Hex, List.filter_app.
  rewrite (filter_none (fun s => negb (isStatic s)) (reorderedStaticStages ps))
    by (intros x Hx; rewrite (proj1 (reordered_static _ _ Hx)); reflexivity).
  rewrite (filter_all (fun s => negb (isStatic s)) C)
    by (intros x Hx; rewrite (proj1 (HC _ Hx)); reflexivity).
  cbn [app]. f_equal.
  assert (Hst : staticStagesPresent (reorderedStaticStages ps ++ C) = reorderedStaticStages ps).
  { unfold staticStagesPresent. rewrite Hex, List.filter_app.
    rewrite (filter_all isStatic (reorderedStaticStages ps))
      by (intros x Hx; apply (reordered_static _ _ Hx)).
    rewrite (filter_none isStatic C) by (intros x Hx; apply (HC _ Hx)).
    apply app_nil_r. }
  unfold reorderedStaticStages at 1. rewrite Hst.
  unfold reorderedStaticStages at 2. apply flat_map_ext_in. intros n Hn.
  unfold reorderedStaticStages.
  rewrite findStage_flat_map; [reflexivity| |exact STATIC_nodup|exact Hn].
  intros m s Hs. unfold findStage in Hs. apply find_some in Hs as [_ He].
  apply String.eqb_eq. exact He.
Qed.

(** Deleting a custom stage from the reconciled view persists a list that
    is already reconciled: once the write echoes back, the view is exactly
    the list left by the deletion, one stage shorter. *)
Theorem delete_custom_keeps_view (ps : list Stage) (index : nat) (s : Stage) :
  nth_error (reconcileStages ps) index = Some s -> isStatic s = false ->
  exists updated,
    handleDeleteStage (reconcileStages ps) index =
      Ok updated [PStagesProgress updated (calculateWeightedProgress updated)] [] /\
    reconcileStages updated = updated /\
    S (length updated) = length (reconcileStages ps).
Proof.
  intros Hs Hst. unfold handleDeleteStage. rewrite Hs, Hst.
  eexists. split; [reflexivity|].
  assert (Hi : (length (reorderedStaticStages ps) <= index)%nat).
  { destruct (Nat.lt_ge_cases index (length (reorderedStaticStages ps))) as [Hlt|Hge];
      [|exact Hge].
    exfalso. unfold reconcileStages in Hs. rewrite nth_error_app1 in Hs by exact Hlt.
    apply nth_error_In in Hs. rewrite (proj1 (reordered_static _ _ Hs)) in Hst.
    discriminate. }
  unfold reconcileStages at 2 3. rewrite removeIndex_app_r by exact Hi.
  split.
  - apply reconcile_reordered_customs. intros x Hx.
    apply removeIndex_incl in Hx. apply (custom_not_static _ _ Hx).
  - assert (Hlt : (index < length (reconcileStages ps))%nat)
      by (apply nth_error_Some; rewrite Hs; discriminate).
    rewrite !removeIndex_eq, !length_app, length_firstn, length_skipn. lia.
Qed.

Lemma delete_custom_keeps_view_witness :
  (nth_error (reconcileStages reorder_example) 2 =
     Some (mkStage "Scope review" false None false) /\
   isStatic (mkStage "Scope review" false None false) = false) /\
  exists updated,
    handleDeleteStage (reconcileStages reorder_example) 2 =
      Ok updated [PStagesProgress updated (calculateWeightedProgress updated)] [] /\
    reconcileStages updated = updated.
Proof.
  assert (H : nth_error (reconcileStages reorder_example) 2 =
                Some (mkStage "Scope review" false None false)) by reflexivity.
  split; [split; [exact H|reflexivity]|].
  destruct (delete_custom_keeps_view _ _ _ H eq_refl) as [u [Hu [Hr _]]].
  exists u. split; assumption.
Defined.
